(** * EJDB Node.js binding: the request normaliser and result projector

    A shallow embedding of [src/ejdb.js].  The JavaScript wrapper sits
    between application code and the native engine handle [_impl]: it
    normalises variable-arity calls, hands a request to the engine together
    with a callback, and later projects the engine's reply onto the caller's
    terminal handler.

    The embedding follows that shape:
    - JavaScript values are first-order data; objects, arrays and functions
      are references into a heap of cells, so that writes to caller-owned
      objects ([hints["$max"] = 1], [so["_id"] = oids[i]]) stay visible
      through every alias;
    - a method body is a computation in a state-and-exception monad [M];
      its result is the call it makes on the engine handle;
    - the function expression handed to the engine is a [callback]
      descriptor, run by [run_callback] on the arguments of the engine's
      reply;
    - a cell carries, next to its contents, what the wrapper's tests and
      writes depend on: whether its [constructor] is [Array] (the test of
      lines 122 and 275), and whether it accepts an assignment (the file
      runs in sloppy mode, where a refused assignment is dropped);
    - calls of caller-supplied functions and of cursor methods are recorded
      in a trace. *)

From stdpp Require Import gmap strings list fin_maps.
From Stdlib Require Import ZArith DecimalString.

Open Scope string_scope.
Open Scope list_scope.
Open Scope nat_scope.

(** ** Values and the heap *)

(** Heap locations. *)
Abbreviation loc := nat (only parsing).

(** What a heap reference denotes: a plain object, an array or a function.
    The tag decides [typeof] and what [concat] splices; it does not decide
    the test [x.constructor === Array], which reads a property. *)
Inductive kind := KPlain | KArray | KFunction.

Inductive value :=
| VUndefined
| VNull
| VBool (b : bool)
| VNum (z : Z)
| VStr (s : string)
| VObject (k : kind) (l : loc)
| VCursor (c : nat).

#[global] Instance kind_eq_dec : EqDecision kind.
Proof. solve_decision. Defined.

#[global] Instance value_eq_dec : EqDecision value.
Proof. solve_decision. Defined.

(** What the wrapper can observe of an object besides its contents:
    whether reading its [constructor] property (own or inherited) yields the
    global [Array], whether new properties can be added to it, and which
    property names are read-only on it (own or inherited). A frozen object
    is not extensible and has all its properties read-only. *)
Record attrs := Attrs {
  ctor_Array : bool;
  extensible : bool;
  readonly : gset string
}.

(** The attributes of an object literal [{}] and of an array literal. *)
Definition plain_attrs : attrs := Attrs false true ∅.

Definition array_attrs : attrs := Attrs true true ∅.

(** A heap cell: the indexed elements (empty unless the cell is an array),
    the named own properties, and the attributes. *)
Record cell := Cell {
  elems : list value;
  props : gmap string value;
  cattrs : attrs
}.

Abbreviation heap := (list cell) (only parsing).

Definition empty_cell : cell := Cell [] ∅ plain_attrs.

(** ** Primitive operators *)

(** [typeof v] *)
Definition typeof (v : value) : string :=
  match v with
  | VUndefined => "undefined"
  | VNull => "object"
  | VBool _ => "boolean"
  | VNum _ => "number"
  | VStr _ => "string"
  | VObject KFunction _ => "function"
  | VObject _ _ => "object"
  | VCursor _ => "object"
  end.

(** ToBoolean, as used by [if (v)], [!v], [v && _], [v || _]. Numbers are
    integers here, so the only falsy number is 0. *)
Definition truthy (v : value) : bool :=
  match v with
  | VUndefined | VNull => false
  | VBool b => b
  | VNum z => negb (z =? 0)%Z
  | VStr s => negb (String.eqb s "")
  | VObject _ _ | VCursor _ => true
  end.

(** Whether [v] is an array object, as [Array.prototype.concat] tests its
    arguments. *)
Definition is_array (v : value) : bool :=
  match v with
  | VObject KArray _ => true
  | _ => false
  end.

(** [v.constructor === Array], for a value that is not [null] or
    [undefined]. This is a property read, not a test of what the object is:
    an array whose [constructor] is not the global [Array] fails it, and an
    object with [constructor] set to [Array] passes. Primitives have the
    constructor of their wrapper, which is never [Array]. *)
Definition constructor_is_Array (h : list cell) (v : value) : bool :=
  match v with
  | VObject _ l => default false (c ← h !! l; Some (ctor_Array (cattrs c)))
  | _ => false
  end.

(** Whether an assignment [o[key] = x] to the object in cell [c] takes
    effect: never on a read-only property, otherwise on a property the
    object already has or on an extensible object. *)
Definition accepts (c : cell) (key : string) : bool :=
  if decide (key ∈ readonly (cattrs c)) then false
  else bool_decide (is_Some (props c !! key)) || extensible (cattrs c).

(** [v === w]; without NaN this is equality of values, references being
    compared by location. *)
Definition strict_eq (v w : value) : bool := bool_decide (v = w).

(** [v != null] *)
Definition not_nullish (v : value) : bool :=
  match v with
  | VUndefined | VNull => false
  | _ => true
  end.

(** ** Engine handle: requests, callbacks, cursors *)

(** The function expressions the wrapper hands to the engine. *)
Inductive callback :=
| CbUser (cb : value)                  (* the caller's handler, passed as is *)
| CbNoop                               (* function() {} *)
| CbSave (jsarr : value) (cb : value)  (* save, lines 129-146 *)
| CbFindOne (cb : value)               (* findOne, lines 349-363 *)
| CbUpdate (cb : value)                (* update, lines 418-424 *)
| CbCount (cb : value).                (* count, lines 472-479 *)

(** A call on [this._impl]. The request array of [query] is freshly built by
    [concat] and handed to the engine only, so it is kept as a list. *)
Inductive engine_call :=
| RemoveCollection (cname prune : value) (cb : callback)
| Save (cname jsarr opts : value) (cb : callback)
| Load (cname oid : value) (cb : callback)
| Remove (cname oid : value) (cb : callback)
| Query (cname : value) (req : list value) (mode : value) (cb : callback)
| Sync (cb : callback)
| SetIndex (cname path flags : value) (cb : callback).

Definition ec_callback (c : engine_call) : callback :=
  match c with
  | RemoveCollection _ _ cb | Save _ _ _ cb | Load _ _ cb | Remove _ _ cb
  | Query _ _ _ cb | Sync cb | SetIndex _ _ _ cb => cb
  end.

(** Modelled from the spec: the engine's cursor is not part of this
    repository. [next()] moves to the next record and tells whether there is
    one, [object()] is the record the cursor stands on, [close()] releases
    it. A cursor is the list of selected records and the number of records
    already stepped over. *)
Record cursor := Cursor { c_records : list value; c_pos : nat }.

Inductive event :=
| EvCall (f : value) (args : list value)   (* a caller-supplied function runs *)
| EvNext (c : nat)
| EvObject (c : nat)
| EvClose (c : nat).

#[global] Instance event_eq_dec : EqDecision event.
Proof. solve_decision. Defined.

Inductive exn :=
| Error (msg : string)       (* throw new Error(msg) *)
| TypeError (msg : string)   (* raised by the language itself *)
| Thrown (v : value).        (* thrown by a caller-supplied function *)

(** ** The state-and-exception monad *)

Record state := State {
  st_heap : heap;
  st_cursors : gmap nat cursor;
  st_trace : list event
}.

Inductive res (A : Type) :=
| Ok (a : A)
| Throw (e : exn).
Arguments Ok {A} a.
Arguments Throw {A} e.

Definition M (A : Type) : Type := state → res A * state.

#[global] Instance M_ret : MRet M := λ A a s, (Ok a, s).

#[global] Instance M_bind : MBind M := λ A B f m s,
  match m s with
  | (Ok a, s') => f a s'
  | (Throw e, s') => (Throw e, s')
  end.

Definition throw {A} (e : exn) : M A := λ s, (Throw e, s).

(** [try { body } finally { fin }]: [fin] runs on every exit of [body]; an
    exception of [fin] replaces the pending one. *)
Definition try_finally {A} (body : M A) (fin : M unit) : M A := λ s,
  match body s with
  | (r, s1) =>
      match fin s1 with
      | (Ok _, s2) => (r, s2)
      | (Throw e, s2) => (Throw e, s2)
      end
  end.

Definition get_heap : M heap := λ s, (Ok (st_heap s), s).

Definition set_heap (h : heap) : M unit := λ s,
  (Ok tt, State h (st_cursors s) (st_trace s)).

Definition log (e : event) : M unit := λ s,
  (Ok tt, State (st_heap s) (st_cursors s) (st_trace s ++ [e])).

(** [{}] and array literals allocate a fresh cell at the end of the heap. *)
Definition alloc (k : kind) (c : cell) : M value := λ s,
  (Ok (VObject k (length (st_heap s))),
   State (st_heap s ++ [c]) (st_cursors s) (st_trace s)).

Definition new_object : M value := alloc KPlain empty_cell.

Definition new_array (xs : list value) : M value :=
  alloc KArray (Cell xs ∅ array_attrs).

(** [v[key]] for a string key that is not an array index. *)
Definition get_prop (v : value) (key : string) : M value :=
  match v with
  | VUndefined | VNull => throw (TypeError "Cannot read property of null or undefined")
  | VObject _ l =>
      h ← get_heap;
      mret (default VUndefined (c ← h !! l; props c !! key))
  | _ => mret VUndefined
  end.

(** [v[key] = x] in sloppy mode, as the file has no ["use strict"]: a
    write that the object does not accept (a read-only property, a new
    property on a non-extensible or frozen object) and a write on a
    primitive are dropped silently. *)
Definition set_prop (v : value) (key : string) (x : value) : M unit :=
  match v with
  | VUndefined | VNull => throw (TypeError "Cannot set property of null or undefined")
  | VObject _ l =>
      h ← get_heap;
      match h !! l with
      | Some c =>
          if accepts c key
          then set_heap (<[l := Cell (elems c) (<[key := x]> (props c)) (cattrs c)]> h)
          else mret tt
      | None => mret tt
      end
  | _ => mret tt
  end.

(** [v[i]] for an array index [i]: an element of an array, a character of
    a string, otherwise the own property named by the decimal digits of
    [i]. *)
Definition get_index (v : value) (i : nat) : M value :=
  match v with
  | VUndefined | VNull => throw (TypeError "Cannot read property of null or undefined")
  | VObject KArray l =>
      h ← get_heap;
      mret (default VUndefined (c ← h !! l; elems c !! i))
  | VObject _ l =>
      h ← get_heap;
      mret (default VUndefined
              (c ← h !! l; props c !! NilZero.string_of_uint (Nat.to_uint i)))
  | VStr s =>
      mret (match String.get i s with
            | Some a => VStr (String a EmptyString)
            | None => VUndefined
            end)
  | _ => mret VUndefined
  end.

(** [v.length]: the number of elements of an array, the number of
    characters of a string, otherwise the own property of that name. *)
Definition get_length (v : value) : M value :=
  match v with
  | VUndefined | VNull => throw (TypeError "Cannot read property of null or undefined")
  | VObject KArray l =>
      h ← get_heap;
      mret (default VUndefined (c ← h !! l; Some (VNum (Z.of_nat (length (elems c))))))
  | VObject _ l =>
      h ← get_heap;
      mret (default VUndefined (c ← h !! l; props c !! "length"))
  | VStr s => mret (VNum (Z.of_nat (String.length s)))
  | _ => mret VUndefined
  end.

(** What one argument of [Array.prototype.concat] contributes: the elements
    of an array, or the value itself. *)
Definition spread (h : heap) (v : value) : list value :=
  match v with
  | VObject KArray l => default [] (c ← h !! l; Some (elems c))
  | _ => [v]
  end.

(** [xs.concat(a1, ..., an)] for a freshly built array [xs]. *)
Definition concat (xs args : list value) : M (list value) :=
  h ← get_heap;
  mret (xs ++ mjoin (spread h <$> args)).

(** The [i]-th actual argument; a missing one reads as [undefined]. *)
Definition arg (args : list value) (i : nat) : value :=
  default VUndefined (args !! i).

(** *** Cursor methods *)

Definition with_cursor {A} (v : value) (f : nat → cursor → M A) : M A :=
  match v with
  | VCursor c => λ s,
      match st_cursors s !! c with
      | Some cur => f c cur s
      | None => (Throw (Error "Invalid cursor handle"), s)
      end
  | _ => throw (TypeError "Cannot call a cursor method on this value")
  end.

Definition put_cursor (c : nat) (cur : cursor) : M unit := λ s,
  (Ok tt, State (st_heap s) (<[c := cur]> (st_cursors s)) (st_trace s)).

(** Modelled from the spec: [cursor.next()] moves to the next record and
    returns true if there is one. *)
Definition cursor_next (v : value) : M value :=
  with_cursor v (λ c cur,
    _ ← log (EvNext c);
    if c_pos cur <? length (c_records cur) then
      _ ← put_cursor c (Cursor (c_records cur) (S (c_pos cur)));
      mret (VBool true)
    else mret (VBool false)).

(** Modelled from the spec: [cursor.object()] is the whole record the
    cursor stands on. *)
Definition cursor_object (v : value) : M value :=
  with_cursor v (λ c cur,
    _ ← log (EvObject c);
    mret (default VNull (c_records cur !! (c_pos cur - 1)))).

(** Modelled from the spec: [cursor.close()] releases the cursor; the call
    is recorded. *)
Definition cursor_close (v : value) : M unit :=
  with_cursor v (λ c cur, log (EvClose c)).

(** ** Constants of the native module *)

(** [ejdblib.JB...]: the native module is not part of the repository, so
    the constants the wrapper reads are parameters. *)
Record constants := Constants {
  JBQRYCOUNT : Z;
  JBIDXDROP : Z;
  JBIDXDROPALL : Z;
  JBIDXOP : Z;
  JBIDXREBLD : Z;
  JBIDXNUM : Z;
  JBIDXSTR : Z;
  JBIDXARR : Z;
  JBIDXISTR : Z
}.

(** ToInt32 on an integer, and the operator [a | b]. *)
Definition to_int32 (z : Z) : Z := ((z + 2 ^ 31) mod 2 ^ 32 - 2 ^ 31)%Z.

Definition js_bitor (a b : Z) : Z := Z.lor (to_int32 a) (to_int32 b).

Definition msg_cb : string := "Callback 'cb' argument must be specified".

Definition msg_cname : string := "Collection name 'cname' argument must be specified".

(** ** The wrapper methods *)

Section Wrapper.

Variable ejdblib : constants.

(** What a caller-supplied function does when it is called: it may change
    the heap and it either returns or throws a value. *)
Variable behaviour : loc → list value → heap → heap * option value.

(** The whole number a string or an object converts to where the wrapper
    does arithmetic on it, [None] for [NaN]; the conversion is taken to
    leave the heap alone. *)
Variable to_number : value → option Z.

(** ToNumber, [None] for [NaN]. *)
Definition number_of (v : value) : option Z :=
  match v with
  | VUndefined => None
  | VNull => Some 0%Z
  | VBool b => Some (if b then 1 else 0)%Z
  | VNum z => Some z
  | _ => to_number v
  end.

(** How often the body of [for (var i = len - 1; i >= 0; --i)] runs. *)
Definition iterations (len : value) : nat :=
  match number_of len with
  | Some z => Z.to_nat z
  | None => 0
  end.

(** [f(args)] for a value [f] held in a variable of the wrapper. *)
Definition call (f : value) (args : list value) : M unit := λ s,
  match f with
  | VObject KFunction l =>
      let '(h', thrown) := behaviour l args (st_heap s) in
      let s' := State h' (st_cursors s) (st_trace s ++ [EvCall f args]) in
      match thrown with
      | None => (Ok tt, s')
      | Some v => (Throw (Thrown v), s')
      end
  | _ => (Throw (TypeError "is not a function"), s)
  end.

(** *** removeCollection, lines 89-99 *)
Definition removeCollection (args : list value) : M engine_call :=
  let cname := arg args 0 in
  let prune := arg args 1 in
  let cb := arg args 2 in
  let '(prune, cb) :=
    if length args =? 2 then (VBool false, prune) else (prune, cb) in
  let cb := if negb (truthy cb) then CbNoop else CbUser cb in
  mret (RemoveCollection cname (VBool (truthy prune)) cb).

(** *** save, lines 118-147 *)
Definition save (args : list value) : M (option engine_call) :=
  let cname := arg args 0 in
  let jsarr := arg args 1 in
  let opts := arg args 2 in
  let cb := arg args 3 in
  if negb (truthy jsarr) then mret None
  else
    h ← get_heap;
    jsarr ← (if negb (constructor_is_Array h jsarr) then new_array [jsarr]
             else mret jsarr);
    let '(cb, opts) :=
      if String.eqb (typeof opts) "function" then (opts, VNull) else (cb, opts) in
    opts ← (if truthy opts then mret opts else new_object);
    mret (Some (Save cname jsarr opts (CbSave jsarr cb))).

(** The loop of lines 137-142, [n] being [i + 1]. *)
Fixpoint assign_ids (jsarr oids : value) (n : nat) : M unit :=
  match n with
  | 0 => mret tt
  | S i =>
      so ← get_index jsarr i;
      differs ← (if not_nullish so then
                   id ← get_prop so "_id";
                   oid ← get_index oids i;
                   mret (negb (strict_eq id oid))
                 else mret false);
      _ ← (if differs : bool then
             oid ← get_index oids i;
             set_prop so "_id" oid
           else mret tt);
      assign_ids jsarr oids i
  end.

(** *** load, remove, sync: lines 158-171 and 489-491 *)
Definition load (args : list value) : M engine_call :=
  mret (Load (arg args 0) (arg args 1) (CbUser (arg args 2))).

Definition remove (args : list value) : M engine_call :=
  mret (Remove (arg args 0) (arg args 1) (CbUser (arg args 2))).

Definition sync (args : list value) : M engine_call :=
  mret (Sync (CbUser (arg args 0))).

(** *** The arity prologue, lines 273-285 (repeated verbatim at 322-334,
    390-402 and 444-456). It yields [orarr], [hints] and [cb]. *)
Definition resolve_arity (args : list value) : M (value * value * value) :=
  let orarr := arg args 2 in
  let hints := arg args 3 in
  let cb := arg args 4 in
  if length args =? 4 then
    let cb := hints in
    h ← get_heap;
    if truthy orarr && constructor_is_Array h orarr then
      hints ← new_object;
      mret (orarr, hints, cb)
    else
      let hints := orarr in
      orarr ← new_array [];
      mret (orarr, hints, cb)
  else if length args =? 3 then
    let cb := orarr in
    orarr ← new_array [];
    hints ← new_object;
    mret (orarr, hints, cb)
  else mret (orarr, hints, cb).

(** [if (!v || typeof v !== "object") { v = {}; }] *)
Definition default_object (v : value) : M value :=
  if negb (truthy v) || negb (String.eqb (typeof v) "object") then new_object
  else mret v.

(** *** find, lines 272-302 *)
Definition find (args : list value) : M engine_call :=
  let cname := arg args 0 in
  let qobj := arg args 1 in
  '(orarr, hints, cb) ← resolve_arity args;
  if negb (String.eqb (typeof cb) "function") then throw (Error msg_cb)
  else if negb (String.eqb (typeof cname) "string") then throw (Error msg_cname)
  else
    hints ← default_object hints;
    qobj ← default_object qobj;
    req ← concat [qobj] [orarr; hints];
    onlycount ← get_prop hints "$onlycount";
    mret (Query cname req
            (if truthy onlycount then VNum (JBQRYCOUNT ejdblib) else VNum 0)
            (CbUser cb)).

(** *** findOne, lines 321-364 *)
Definition findOne (args : list value) : M engine_call :=
  let cname := arg args 0 in
  let qobj := arg args 1 in
  '(orarr, hints, cb) ← resolve_arity args;
  if negb (String.eqb (typeof cb) "function") then throw (Error msg_cb)
  else if negb (String.eqb (typeof cname) "string") then throw (Error msg_cname)
  else
    hints ← default_object hints;
    qobj ← default_object qobj;
    _ ← set_prop hints "$max" (VNum 1);
    req ← concat [qobj] [orarr; hints];
    mret (Query cname req (VNum 0) (CbFindOne cb)).

(** *** update, lines 389-425 *)
Definition update (args : list value) : M engine_call :=
  let cname := arg args 0 in
  let qobj := arg args 1 in
  '(orarr, hints, cb) ← resolve_arity args;
  let cb := if negb (String.eqb (typeof cb) "function") then VNull else cb in
  if negb (String.eqb (typeof cname) "string") then throw (Error msg_cname)
  else
    hints ← default_object hints;
    qobj ← default_object qobj;
    req ← concat [qobj] [orarr; hints];
    mret (Query cname req (VNum (JBQRYCOUNT ejdblib)) (CbUpdate cb)).

(** *** count, lines 443-480 *)
Definition count (args : list value) : M engine_call :=
  let cname := arg args 0 in
  let qobj := arg args 1 in
  '(orarr, hints, cb) ← resolve_arity args;
  if negb (String.eqb (typeof cb) "function") then throw (Error msg_cb)
  else if negb (String.eqb (typeof cname) "string") then throw (Error msg_cname)
  else
    hints ← default_object hints;
    qobj ← default_object qobj;
    req ← concat [qobj] [orarr; hints];
    mret (Query cname req (VNum (JBQRYCOUNT ejdblib)) (CbCount cb)).

(** *** The index methods, lines 500-646 *)
Inductive index_method :=
| dropIndexes | optimizeIndexes
| ensureStringIndex | rebuildStringIndex | dropStringIndex
| ensureIStringIndex | rebuildIStringIndex | dropIStringIndex
| ensureNumberIndex | rebuildNumberIndex | dropNumberIndex
| ensureArrayIndex | rebuildArrayIndex | dropArrayIndex.

Definition index_flags (m : index_method) : Z :=
  match m with
  | dropIndexes => JBIDXDROPALL ejdblib
  | optimizeIndexes => JBIDXOP ejdblib
  | ensureStringIndex => JBIDXSTR ejdblib
  | rebuildStringIndex => js_bitor (JBIDXSTR ejdblib) (JBIDXREBLD ejdblib)
  | dropStringIndex => js_bitor (JBIDXSTR ejdblib) (JBIDXDROP ejdblib)
  | ensureIStringIndex => JBIDXISTR ejdblib
  | rebuildIStringIndex => js_bitor (JBIDXISTR ejdblib) (JBIDXREBLD ejdblib)
  | dropIStringIndex => js_bitor (JBIDXISTR ejdblib) (JBIDXDROP ejdblib)
  | ensureNumberIndex => JBIDXNUM ejdblib
  | rebuildNumberIndex => js_bitor (JBIDXNUM ejdblib) (JBIDXREBLD ejdblib)
  | dropNumberIndex => js_bitor (JBIDXNUM ejdblib) (JBIDXDROP ejdblib)
  | ensureArrayIndex => JBIDXARR ejdblib
  | rebuildArrayIndex => js_bitor (JBIDXARR ejdblib) (JBIDXREBLD ejdblib)
  | dropArrayIndex => js_bitor (JBIDXARR ejdblib) (JBIDXDROP ejdblib)
  end.

Definition setIndex (m : index_method) (args : list value) : M engine_call :=
  mret (SetIndex (arg args 0) (arg args 1) (VNum (index_flags m))
          (CbUser (arg args 2))).

(** ** The function expressions handed to the engine

    [run_callback k reply] is the body of the callback [k] applied to the
    arguments [reply] of the engine: [(err, oids)] for [save] and
    [(err, cursor, count, log)] for [query]. *)
Definition run_callback (k : callback) (reply : list value) : M unit :=
  match k with
  | CbUser cb => call cb reply
  | CbNoop => mret tt
  | CbSave jsarr cb =>
      let err := arg reply 0 in
      let oids := arg reply 1 in
      if truthy err then
        (if truthy cb then call cb [err] else mret tt)
      else
        len ← get_length jsarr;
        _ ← assign_ids jsarr oids (iterations len);
        if truthy cb then call cb [err; oids] else mret tt
  | CbFindOne cb =>
      let err := arg reply 0 in
      let cursor := arg reply 1 in
      if truthy err then call cb [err]
      else
        more ← cursor_next cursor;
        if truthy more then
          try_finally (o ← cursor_object cursor; call cb [VNull; o])
                      (cursor_close cursor)
        else call cb [VNull; VNull]
  | CbUpdate cb =>
      let err := arg reply 0 in
      let count := arg reply 2 in
      let log := arg reply 3 in
      if truthy err then call cb [err; VNull; log]
      else call cb [VNull; count; log]
  | CbCount cb =>
      let err := arg reply 0 in
      let cursor := arg reply 1 in
      let count := arg reply 2 in
      if truthy err then call cb [err]
      else
        _ ← cursor_close cursor;
        call cb [VNull; count]
  end.

(** ** Public operations that take a terminal handler *)

Inductive method :=
| MRemoveCollection | MSave | MLoad | MRemove
| MFind | MFindOne | MUpdate | MCount | MSync
| MIndex (m : index_method).

(** One call of a public method: the engine call it makes, if any. *)
Definition public_call (m : method) (args : list value) : M (option engine_call) :=
  match m with
  | MRemoveCollection => c ← removeCollection args; mret (Some c)
  | MSave => save args
  | MLoad => c ← load args; mret (Some c)
  | MRemove => c ← remove args; mret (Some c)
  | MFind => c ← find args; mret (Some c)
  | MFindOne => c ← findOne args; mret (Some c)
  | MUpdate => c ← update args; mret (Some c)
  | MCount => c ← count args; mret (Some c)
  | MSync => c ← sync args; mret (Some c)
  | MIndex i => c ← setIndex i args; mret (Some c)
  end.

(** A whole operation against an engine that answers every request it is
    given exactly once, with [reply]. *)
Definition operation (m : method) (args reply : list value) : M unit :=
  r ← public_call m args;
  match r with
  | Some c => run_callback (ec_callback c) reply
  | None => mret tt
  end.

End Wrapper.

(** ** Notions used to state the properties *)

(** The terminal handler picked by the arity prologue: the assignments to
    [cb] of lines 274 and 282, and the fifth parameter otherwise. *)
Definition resolved_handler (args : list value) : value :=
  if length args =? 4 then arg args 3
  else if length args =? 3 then arg args 2
  else arg args 4.

(** The errors thrown by the argument checks. *)
Definition invalid_argument (e : exn) : Prop :=
  e = Error msg_cb ∨ e = Error msg_cname.

(** No dangling reference. *)
Definition wf (h : heap) (v : value) : Prop :=
  match v with
  | VObject _ l => l < length h
  | _ => True
  end.

(** What the engine reads from an element of a request array: a primitive,
    or the kind and cell of an object. Two requests are the same to the
    engine when their elements have the same content, whatever the address
    of a defaulted [{}]. *)
Definition content (h : heap) (v : value) : value + kind * option cell :=
  match v with
  | VObject k l => inr (k, h !! l)
  | _ => inl v
  end.

Definition same_dispatch (o1 o2 : res engine_call * state) : Prop :=
  match o1, o2 with
  | (Ok (Query c1 r1 m1 k1), s1), (Ok (Query c2 r2 m2 k2), s2) =>
      c1 = c2 ∧ content (st_heap s1) <$> r1 = content (st_heap s2) <$> r2
      ∧ m1 = m2 ∧ k1 = k2
  | _, _ => False
  end.

(** The caller's handler inside a callback of the wrapper. *)
Definition handler_of (k : callback) : option value :=
  match k with
  | CbUser cb | CbSave _ cb | CbFindOne cb | CbUpdate cb | CbCount cb => Some cb
  | CbNoop => None
  end.

Definition is_call_of (f : value) (e : event) : bool :=
  match e with
  | EvCall g _ => bool_decide (g = f)
  | _ => false
  end.

Definition is_close_of (c : nat) (e : event) : bool :=
  match e with
  | EvClose d => bool_decide (d = c)
  | _ => false
  end.

(** Number of calls of [f] recorded in a trace. *)
Definition count_calls (f : value) (tr : list event) : nat :=
  length (List.filter (is_call_of f) tr).

(** Number of times cursor [c] is closed in a trace. *)
Definition count_closes (c : nat) (tr : list event) : nat :=
  length (List.filter (is_close_of c) tr).

(** A reply the engine may give to callback [k] in state [s]: a successful
    query comes with a live cursor, a successful save with its
    identifiers. *)
Definition reply_ok (k : callback) (reply : list value) (s : state) : Prop :=
  match k with
  | CbFindOne _ | CbCount _ =>
      truthy (arg reply 0) = false →
      ∃ c cur, arg reply 1 = VCursor c ∧ st_cursors s !! c = Some cur
  | CbSave _ _ =>
      truthy (arg reply 0) = false → not_nullish (arg reply 1) = true
  | _ => True
  end.

(** The batch held by a callback of [save] is an object or a primitive,
    never [null] or [undefined]: [save] returns at line 120 otherwise. *)
Definition batch_ok (k : callback) : Prop :=
  match k with
  | CbSave jsarr _ => not_nullish jsarr = true
  | _ => True
  end.

(** [oids[i]] for the identifier list [ids]. *)
Definition oid_at (ids : list value) (i : nat) : value :=
  default VUndefined (ids !! i).

(** [c["_id"]] for a cell [c]. *)
Definition id_of (c : cell) : value :=
  default VUndefined (props c !! "_id").

(** A state that differs from [s] by fresh cells only. *)
Definition extends (s s' : state) : Prop :=
  st_heap s `prefix_of` st_heap s'
  ∧ st_cursors s' = st_cursors s ∧ st_trace s' = st_trace s.

(** [v[key]] read off the content of [v]. *)
Definition content_prop (c : value + kind * option cell) (key : string) : value :=
  match c with
  | inr (_, Some cl) => default VUndefined (props cl !! key)
  | _ => VUndefined
  end.

(** The content of [v] once [default_object] has replaced a non-object by
    a fresh [{}]. *)
Definition defaulted_content (h : heap) (v : value) : value + kind * option cell :=
  if negb (truthy v) || negb (String.eqb (typeof v) "object")
  then inr (KPlain, Some empty_cell)
  else content h v.

(** What the engine reads of the hints at the end of a request: hints that
    are not an object have been replaced by a fresh [{}], and [concat]
    splices hints that are an array. *)
Definition hints_view (h : heap) (hv : value)
    : list (value + kind * option cell) :=
  if negb (truthy hv) || negb (String.eqb (typeof hv) "object")
  then [inr (KPlain, Some empty_cell)]
  else content h <$> spread h hv.

(** The content of the request that [find] builds at line 298 from the
    predicate [q], the or-predicates [ors] and the hints [hv]. *)
Definition request_view (h : heap) (q : value) (ors : list value) (hv : value)
    : list (value + kind * option cell) :=
  defaulted_content h q :: (content h <$> ors) ++ hints_view h hv.

(** The mode that [find] computes at line 299 from the hints [hv]. *)
Definition find_mode (K : constants) (h : heap) (hv : value) : value :=
  if truthy (content_prop (defaulted_content h hv) "$onlycount")
  then VNum (JBQRYCOUNT K) else VNum 0.

(** An outcome that is a query on [cname] whose request has content
    [view], with mode [mode] and callback [k]. *)
Definition dispatches (o : res engine_call * state) (cname : value)
    (view : list (value + kind * option cell)) (mode : value)
    (k : callback) : Prop :=
  match o with
  | (Ok (Query c r m k'), s') =>
      c = cname ∧ content (st_heap s') <$> r = view ∧ m = mode ∧ k' = k
  | _ => False
  end.

(** One iteration of the loop of lines 137-142 as a heap transformer, for a
    batch [docs] and identifiers [ids]. *)
Definition assign_step (docs ids : list value) (i : nat) (h : heap) : heap :=
  match docs !! i with
  | Some (VObject _ l) =>
      match h !! l with
      | Some c =>
          if strict_eq (id_of c) (oid_at ids i) || negb (accepts c "_id") then h
          else <[l := Cell (elems c) (<["_id" := oid_at ids i]> (props c))
                        (cattrs c)]> h
      | None => h
      end
  | _ => h
  end.

Fixpoint assign_heap (docs ids : list value) (n : nat) (h : heap) : heap :=
  match n with
  | 0 => h
  | S i => assign_heap docs ids i (assign_step docs ids i h)
  end.

(** A computation whose result, when it returns, satisfies [P]. *)
Definition yields {A} (P : A → Prop) (m : M A) : Prop :=
  ∀ s a s', m s = (Ok a, s') → P a.

(** The synchronous part of a method neither calls a function nor touches
    a cursor. *)
Definition quiet {A} (m : M A) : Prop :=
  ∀ s r s', m s = (r, s') →
    st_trace s' = st_trace s ∧ st_cursors s' = st_cursors s.

(** A computation that only adds fresh cells to the heap and leaves
    cursors and trace alone. *)
Definition extending {A} (m : M A) : Prop :=
  ∀ s r s', m s = (r, s') → extends s s'.

(** A computation that keeps every cell of the heap up to its property
    [key]: elements, attributes and all other properties are as before. *)
Definition keeps_except (key : string) {A} (m : M A) : Prop :=
  ∀ s r s' l c, m s = (r, s') → st_heap s !! l = Some c →
    ∃ p', st_heap s' !! l = Some (Cell (elems c) p' (cattrs c))
          ∧ ∀ k, k ≠ key → p' !! k = props c !! k.

(** ** The exported constants, lines 16-21 *)

(** [k.indexOf("JB") === 0] *)
Definition starts_with_JB (k : string) : bool :=
  match String.index 0 "JB" k with
  | Some 0 => true
  | _ => false
  end.

(** The loop over the properties of the native module, then line 21.
    [exports] are the enumerable properties of [ejdblib], [statics] those the [EJDB]
    function has before the loop, [default_mode] the value of
    [DEFAULT_OPEN_MODE] computed at line 10. A [for-in] loop visits each
    property name once; the order does not matter here. *)
Definition export_constants (exports : gmap string value) (default_mode : value)
    (statics : gmap string value) : gmap string value :=
  <["DEFAULT_OPEN_MODE" := default_mode]>
    (map_fold (λ k v acc, if starts_with_JB k then <[k := v]> acc else acc)
       statics exports).

(** The flag constants combined by the index methods. *)
Definition index_constants (K : constants) : list Z :=
  [JBIDXDROP K; JBIDXDROPALL K; JBIDXOP K; JBIDXREBLD K;
   JBIDXNUM K; JBIDXSTR K; JBIDXARR K; JBIDXISTR K].

(** Flags that are non-zero 31-bit words, no two sharing a bit. *)
Fixpoint disjoint_flags (l : list Z) : Prop :=
  match l with
  | [] => True
  | x :: l' =>
      (0 < x < 2 ^ 31)%Z ∧ Forall (λ y, Z.land x y = 0%Z) l' ∧ disjoint_flags l'
  end.

(** ** A sample session

    Concrete data for the closed examples at the end of the file: flag
    values for the native module, a heap as a caller would have built it,
    two cursors, and two handlers. *)

Definition sample_constants : constants := Constants 1 1 2 4 8 16 32 64 128.

Definition sample_heap : heap :=
  [ Cell [] {["author" := VStr "Eco"]} plain_attrs;                 (* 0: a predicate *)
    Cell [] ∅ plain_attrs;                                          (* 1: the handler *)
    Cell [] ∅ array_attrs;                                          (* 2: [] *)
    Cell [] ∅ plain_attrs;                                          (* 3: {} *)
    Cell [] (<["$max" := VNum 10]> {["$onlycount" := VBool true]})
      plain_attrs;                                                  (* 4: hints *)
    Cell [] {["a" := VNum 1]} plain_attrs;                          (* 5: a document *)
    Cell [] {["b" := VNum 2]} plain_attrs;                          (* 6: a document *)
    Cell [VObject KPlain 5; VObject KPlain 6] ∅ array_attrs;        (* 7: the batch *)
    Cell [VStr "5098a1"; VStr "5098a2"] ∅ array_attrs ].            (* 8: identifiers *)

Definition sample_cursors : gmap nat cursor :=
  {[ 0 := Cursor [VObject KPlain 5; VObject KPlain 6] 0;   (* two records *)
     1 := Cursor [] 0 ]}.                                  (* no record *)

Definition sample_state : state := State sample_heap sample_cursors [].

Definition sample_handler : value := VObject KFunction 1.

(** A handler that returns, and one that throws. *)
Definition returns : loc → list value → heap → heap * option value :=
  λ _ _ h, (h, None).

Definition throws : loc → list value → heap → heap * option value :=
  λ _ _ h, (h, Some (VStr "handler failed")).

(** No string and no object of the session converts to a number. *)
Definition not_a_number : value → option Z := λ _, None.

(** Objects that differ from those an object or array literal creates: a
    frozen document, frozen hints, an array of another realm (its
    [constructor] is that realm's [Array], not this one's) holding one
    predicate, an object whose [constructor] property is set to [Array], a
    batch holding the frozen document, and a batch of another realm. *)
Definition exotic_heap : heap :=
  sample_heap ++
  [ Cell [] {["a" := VNum 1]} (Attrs false false {["a"]});           (* 9 *)
    Cell [] {["$max" := VNum 10]} (Attrs false false {["$max"]});    (* 10 *)
    Cell [VObject KPlain 0] ∅ (Attrs false true ∅);                  (* 11 *)
    Cell [] {["$onlycount" := VBool true]} (Attrs true true ∅);      (* 12 *)
    Cell [VObject KPlain 9] ∅ array_attrs;                           (* 13 *)
    Cell [VObject KPlain 5] ∅ (Attrs false true ∅) ].                (* 14 *)

Definition exotic_state : state := State exotic_heap sample_cursors [].

(** * Properties *)

Ltac run :=
  unfold find, findOne, update, count, save, resolve_arity, default_object,
    concat, get_prop, set_prop, new_object, new_array, alloc, get_heap,
    set_heap, log, throw, mbind, M_bind, mret, M_ret;
  cbn.

Section Properties.

Variable ejdblib : constants.
Variable behaviour : loc → list value → heap → heap * option value.
Variable to_number : value → option Z.

(** ** The monad *)

Lemma bind_ok {A B} (m : M A) (f : A → M B) s a s' :
  m s = (Ok a, s') → (m ≫= f) s = f a s'.
Proof. intros H. unfold mbind, M_bind. by rewrite H. Qed.

Lemma extends_refl s : extends s s.
Proof. by split. Qed.

(** ** The arity prologue *)

Lemma resolve_arity_handler args s :
  ∃ o h s', resolve_arity args s = (Ok (o, h, resolved_handler args), s')
            ∧ extends s s'.
Proof.
  unfold resolve_arity, resolved_handler.
  destruct (length args =? 4).
  - run.
    destruct (truthy (arg args 2) && constructor_is_Array (st_heap s) (arg args 2));
      cbn; eexists _, _, _; (split; [reflexivity|]);
      (split; [by apply prefix_app_r|done]).
  - destruct (length args =? 3); run; eexists _, _, _; (split; [reflexivity|]).
    + split; [|done]. cbn. rewrite <- app_assoc. by apply prefix_app_r.
    + apply extends_refl.
Qed.

Lemma typeof_function v :
  typeof v = "function" → ∃ l, v = VObject KFunction l.
Proof. destruct v as [| | | | |[] l|]; try discriminate. eauto. Qed.

(** Enter a method of the [find] family: run the prologue, leaving the
    argument checks in the goal. *)
Ltac enter args s o h s' Hr Hext :=
  destruct (resolve_arity_handler args s) as (o & h & s' & Hr & Hext);
  unfold public_call, find, findOne, update, count, mbind, M_bind;
  rewrite Hr; cbn.

(** ** C8: invalid arguments are rejected before the engine is contacted *)

(** C8. For [find], [findOne] and [count] called so that the resolved
    terminal handler is not a function, and for [find], [findOne], [update]
    and [count] called with a collection name that is not a string, the call
    throws one of the two argument errors synchronously: no engine call is
    made, and the caller-visible state is untouched. *)
Theorem invalid_argument_thrown_synchronously
    (m : method) (args : list value) (s : state) :
  (m ∈ [MFind; MFindOne; MCount] ∧ typeof (resolved_handler args) ≠ "function")
  ∨ (m ∈ [MFind; MFindOne; MUpdate; MCount] ∧ typeof (arg args 0) ≠ "string") →
  ∃ e s', public_call ejdblib m args s = (Throw e, s')
          ∧ invalid_argument e ∧ extends s s'.
Proof.
  clear to_number. intros H.
  assert (Hm : m ∈ [MFind; MFindOne; MUpdate; MCount]).
  { destruct H as [[H _]|[H _]]; revert H; rewrite !elem_of_cons; tauto. }
  destruct (String.eqb_spec (typeof (resolved_handler args)) "function") as [Hf|Hf].
  - (* the handler is a function: the collection name is at fault *)
    assert (Hc : typeof (arg args 0) ≠ "string") by (destruct H as [[_ H]|[_ H]]; done).
    apply String.eqb_eq in Hf. apply String.eqb_neq in Hc.
    exists (Error msg_cname).
    repeat (apply elem_of_cons in Hm as [->|Hm]); [..|by apply elem_of_nil in Hm];
      enter args s o h s' Hr Hext; rewrite ?Hf, Hc; cbn;
      (exists s'; split; [reflexivity|split; [by right|done]]).
  - apply String.eqb_neq in Hf.
    repeat (apply elem_of_cons in Hm as [->|Hm]); [..|by apply elem_of_nil in Hm];
      enter args s o h s' Hr Hext; rewrite Hf; cbn.
    1, 2, 4: exists (Error msg_cb), s'; (split; [reflexivity|split; [by left|done]]).
    (* update forgives the missing handler, so the name is at fault *)
    assert (Hc : typeof (arg args 0) ≠ "string").
    { destruct H as [[H _]|[_ H]]; [|done]. revert H. rewrite !elem_of_cons, elem_of_nil. intuition discriminate. }
    apply String.eqb_neq in Hc. rewrite Hc. cbn.
    exists (Error msg_cname), s'. split; [reflexivity|split; [by right|done]].
Qed.

(** ** Calls of caller-supplied functions *)

Lemma call_function l args s :
  call behaviour (VObject KFunction l) args s =
    (match (behaviour l args (st_heap s)).2 with
     | None => Ok tt
     | Some v => Throw (Thrown v)
     end,
     State (behaviour l args (st_heap s)).1 (st_cursors s)
           (st_trace s ++ [EvCall (VObject KFunction l) args])).
Proof. unfold call. by destruct (behaviour l args (st_heap s)) as [h' []]. Qed.

Lemma default_object_ok v s :
  ∃ v' s', default_object v s = (Ok v', s') ∧ extends s s'
           ∧ not_nullish v' = true.
Proof.
  unfold default_object.
  destruct (negb (truthy v) || negb (String.eqb (typeof v) "object")) eqn:E.
  - eexists _, _. split; [reflexivity|]. split; [|done].
    split; [by apply prefix_app_r|done].
  - exists v, s. split; [reflexivity|]. split; [apply extends_refl|].
    by destruct v.
Qed.

Lemma set_prop_ok v key x s :
  not_nullish v = true →
  ∃ s', set_prop v key x s = (Ok tt, s')
        ∧ st_cursors s' = st_cursors s ∧ st_trace s' = st_trace s.
Proof.
  intros Hv. destruct v; try done; try by (exists s).
  run. destruct (st_heap s !! l) as [c|]; [destruct (accepts c key)|];
    eexists; (split; [reflexivity|done]).
Qed.

(** ** C9: update always counts, and forwards the diagnostic log *)

(** C9. Every [update] call that passes the collection-name check hands the
    engine the mode flag [JBQRYCOUNT], whatever the hints are; and when the
    resolved handler is a function, the callback given to the engine calls
    it once with [(null, count, log)] on success and with
    [(err, null, log)] on failure. *)
Theorem update_counts_and_forwards_log (args : list value) (s : state) :
  typeof (arg args 0) = "string" →
  ∃ req cb s1,
    update ejdblib args s =
      (Ok (Query (arg args 0) req (VNum (JBQRYCOUNT ejdblib)) (CbUpdate cb)), s1)
    ∧ (typeof (resolved_handler args) = "function" →
       cb = resolved_handler args
       ∧ ∀ reply s2,
           st_trace (run_callback behaviour to_number (CbUpdate cb) reply s2).2 =
             st_trace s2 ++
               [EvCall cb (if truthy (arg reply 0)
                           then [arg reply 0; VNull; arg reply 3]
                           else [VNull; arg reply 2; arg reply 3])]).
Proof.
  intros Hc. apply String.eqb_eq in Hc.
  enter args s o h s' Hr Hext. rewrite Hc. cbn.
  destruct (default_object_ok h s') as (h1 & s1 & -> & _ & _).
  destruct (default_object_ok (arg args 1) s1) as (q1 & s2 & -> & _ & _).
  cbn. eexists _, _, _. split; [reflexivity|].
  intros Hf. rewrite Hf. cbn. split; [done|].
  destruct (typeof_function _ Hf) as [l ->].
  intros reply s3. cbn.
  destruct (truthy (arg reply 0)); by rewrite call_function.
Qed.

(** [update] without a callable handler: the callback handed to the engine
    calls [null]. *)
Lemma update_callback_calls_null (args : list value) (s : state) :
  typeof (arg args 0) = "string" →
  typeof (resolved_handler args) ≠ "function" →
  ∃ req s1,
    update ejdblib args s =
      (Ok (Query (arg args 0) req (VNum (JBQRYCOUNT ejdblib)) (CbUpdate VNull)), s1)
    ∧ ∀ reply s2,
        run_callback behaviour to_number (CbUpdate VNull) reply s2 =
          (Throw (TypeError "is not a function"), s2).
Proof.
  intros Hc Hf. apply String.eqb_eq in Hc. apply String.eqb_neq in Hf.
  enter args s o h s' Hr Hext. rewrite Hc, Hf. cbn.
  destruct (default_object_ok h s') as (h1 & s1 & -> & _ & _).
  destruct (default_object_ok (arg args 1) s1) as (q1 & s2 & -> & _ & _).
  cbn. eexists _, _. split; [reflexivity|].
  intros reply s3. by destruct (truthy (arg reply 0)).
Qed.

(** ** findOne and count: what the callbacks do with the cursor *)

(** Run a callback body on a cursor known by [Hs]. *)
Ltac crunch Hs :=
  repeat (progress (unfold try_finally, mbind, M_bind, mret, M_ret, log,
                      put_cursor; cbn;
                    rewrite ?Hs, ?lookup_insert_eq, ?call_function)).

Lemma findOne_dispatch (args : list value) (s : state) :
  typeof (resolved_handler args) = "function" →
  typeof (arg args 0) = "string" →
  ∃ req s1,
    findOne args s =
      (Ok (Query (arg args 0) req (VNum 0) (CbFindOne (resolved_handler args))), s1).
Proof.
  intros Hf Hc. apply String.eqb_eq in Hf, Hc.
  enter args s o h s' Hr Hext. rewrite Hf, Hc. cbn.
  destruct (default_object_ok h s') as (h1 & s1 & -> & _ & Hh1).
  destruct (default_object_ok (arg args 1) s1) as (q1 & s2 & -> & _ & _).
  destruct (set_prop_ok h1 "$max" (VNum 1) s2 Hh1) as (s3 & -> & _).
  cbn. by eexists _, _.
Qed.

Lemma count_dispatch (args : list value) (s : state) :
  typeof (resolved_handler args) = "function" →
  typeof (arg args 0) = "string" →
  ∃ req s1,
    count ejdblib args s =
      (Ok (Query (arg args 0) req (VNum (JBQRYCOUNT ejdblib))
             (CbCount (resolved_handler args))), s1).
Proof.
  intros Hf Hc. apply String.eqb_eq in Hf, Hc.
  enter args s o h s' Hr Hext. rewrite Hf, Hc. cbn.
  destruct (default_object_ok h s') as (h1 & s1 & -> & _ & _).
  destruct (default_object_ok (arg args 1) s1) as (q1 & s2 & -> & _ & _).
  cbn. by eexists _, _.
Qed.

Lemma count_closes_app c tr1 tr2 :
  count_closes c (tr1 ++ tr2) = count_closes c tr1 + count_closes c tr2.
Proof. unfold count_closes. by rewrite List.filter_app, length_app. Qed.

(** C3. A valid [findOne] call reaches the engine; when the engine answers
    without error and the cursor holds at least one record, the callback
    steps onto the first record, calls the handler with [(null, record)]
    and then closes the cursor, exactly once, whether the handler returns
    or throws; the only exception that can escape is the handler's own. *)
Theorem findOne_match_closes_once (args : list value) (s0 : state) :
  typeof (resolved_handler args) = "function" →
  typeof (arg args 0) = "string" →
  ∃ req s1 l,
    resolved_handler args = VObject KFunction l
    ∧ findOne args s0 =
        (Ok (Query (arg args 0) req (VNum 0) (CbFindOne (resolved_handler args))), s1)
    ∧ ∀ reply s c d rest,
        truthy (arg reply 0) = false →
        arg reply 1 = VCursor c →
        st_cursors s !! c = Some (Cursor (d :: rest) 0) →
        let out := run_callback behaviour to_number (CbFindOne (resolved_handler args)) reply s in
        st_trace out.2 =
          st_trace s ++ [EvNext c; EvObject c;
                         EvCall (resolved_handler args) [VNull; d]; EvClose c]
        ∧ count_closes c (st_trace out.2) = count_closes c (st_trace s) + 1
        ∧ out.1 = match (behaviour l [VNull; d] (st_heap s)).2 with
                  | None => Ok tt
                  | Some v => Throw (Thrown v)
                  end.
Proof.
  intros Hf Hc.
  destruct (findOne_dispatch args s0 Hf Hc) as (req & s1 & Hd).
  destruct (typeof_function _ Hf) as [l Hl].
  exists req, s1, l. split; [done|]. split; [done|].
  intros reply s c d rest Herr Hcur Hs. rewrite Hl. cbn.
  rewrite Herr, Hcur. crunch Hs.
  assert (Hcount : ∀ tr, count_closes c
            ((((tr ++ [EvNext c]) ++ [EvObject c]) ++
               [EvCall (VObject KFunction l) [VNull; d]]) ++ [EvClose c])
            = count_closes c tr + 1).
  { intros tr. rewrite !count_closes_app. unfold count_closes. cbn.
    rewrite bool_decide_eq_true_2 by done. cbn. lia. }
  destruct (behaviour l [VNull; d] (st_heap s)) as [h' [v|]]; cbn;
    rewrite lookup_insert_eq; cbn;
    rewrite <- !app_assoc; (split; [done|]); (split; [|done]);
    rewrite <- Hcount; by rewrite <- !app_assoc.
Qed.

(** C4. When the engine answers a [findOne] query without error and the
    cursor holds no record, the callback calls the handler with
    [(null, null)] and never closes the cursor; nothing but the handler can
    throw. *)
Theorem findOne_no_match_yields_null (args : list value) (s0 : state) :
  typeof (resolved_handler args) = "function" →
  typeof (arg args 0) = "string" →
  ∃ req s1 l,
    resolved_handler args = VObject KFunction l
    ∧ findOne args s0 =
        (Ok (Query (arg args 0) req (VNum 0) (CbFindOne (resolved_handler args))), s1)
    ∧ ∀ reply s c pos,
        truthy (arg reply 0) = false →
        arg reply 1 = VCursor c →
        st_cursors s !! c = Some (Cursor [] pos) →
        let out := run_callback behaviour to_number (CbFindOne (resolved_handler args)) reply s in
        st_trace out.2 =
          st_trace s ++ [EvNext c; EvCall (resolved_handler args) [VNull; VNull]]
        ∧ count_closes c (st_trace out.2) = count_closes c (st_trace s)
        ∧ out.1 = match (behaviour l [VNull; VNull] (st_heap s)).2 with
                  | None => Ok tt
                  | Some v => Throw (Thrown v)
                  end.
Proof.
  intros Hf Hc.
  destruct (findOne_dispatch args s0 Hf Hc) as (req & s1 & Hd).
  destruct (typeof_function _ Hf) as [l Hl].
  exists req, s1, l. split; [done|]. split; [done|].
  intros reply s c pos Herr Hcur Hs. rewrite Hl. cbn.
  rewrite Herr, Hcur. crunch Hs.
  destruct (behaviour l [VNull; VNull] (st_heap s)) as [h' [v|]]; cbn;
    rewrite <- !app_assoc; cbn; (split; [done|]); (split; [|done]);
    unfold count_closes; rewrite List.filter_app, length_app; cbn; lia.
Qed.

(** C5. A valid [count] call reaches the engine with a callback that never
    hands the cursor on: on success it closes the cursor, once, and only
    then calls the handler with [(null, count)]; on failure it calls the
    handler with the error alone and leaves the cursor slot untouched. *)
Theorem count_closes_cursor_once (args : list value) (s0 : state) :
  typeof (resolved_handler args) = "function" →
  typeof (arg args 0) = "string" →
  ∃ req s1,
    count ejdblib args s0 =
      (Ok (Query (arg args 0) req (VNum (JBQRYCOUNT ejdblib))
             (CbCount (resolved_handler args))), s1)
    ∧ ∀ reply s,
        let out := run_callback behaviour to_number (CbCount (resolved_handler args)) reply s in
        (truthy (arg reply 0) = false →
         ∀ c cur, arg reply 1 = VCursor c → st_cursors s !! c = Some cur →
           st_trace out.2 =
             st_trace s ++ [EvClose c;
                            EvCall (resolved_handler args) [VNull; arg reply 2]]
           ∧ count_closes c (st_trace out.2) = count_closes c (st_trace s) + 1)
        ∧ (truthy (arg reply 0) = true →
           st_trace out.2 =
             st_trace s ++ [EvCall (resolved_handler args) [arg reply 0]]).
Proof.
  intros Hf Hc.
  destruct (count_dispatch args s0 Hf Hc) as (req & s1 & Hd).
  destruct (typeof_function _ Hf) as [l Hl].
  exists req, s1. split; [done|].
  intros reply s. rewrite Hl. cbn. split.
  - intros Herr c cur Hcur Hs. rewrite Herr, Hcur. crunch Hs.
    destruct (behaviour l [VNull; arg reply 2] (st_heap s)) as [h' [v|]]; cbn;
      rewrite <- !app_assoc; cbn; (split; [done|]);
      unfold count_closes; rewrite List.filter_app, length_app; cbn;
      by rewrite bool_decide_eq_true_2.
  - intros Herr. rewrite Herr. by rewrite call_function.
Qed.

(** ** C10: findOne writes into the caller's hints *)

Lemma extends_lookup s s' l c :
  extends s s' → st_heap s !! l = Some c → st_heap s' !! l = Some c.
Proof. intros (Hp & _) Hl. by eapply prefix_lookup_Some. Qed.

(** C10 (amended). In a valid [findOne] call whose hints argument is an
    object of the caller (the fourth argument of five, or a third argument
    of four whose [constructor] is not [Array]), that very object has its
    ["$max"] property set to 1 when the call returns, whatever it held
    before, provided the object accepts the assignment; its other
    properties, its elements and its attributes are as they were. An object
    that does not accept the assignment is left as it is, and the call
    reaches the engine all the same. *)
Theorem findOne_overwrites_caller_max
    (args : list value) (cname q o cb : value) (k : kind) (l : loc)
    (c : cell) (s : state) :
  k ≠ KFunction →
  st_heap s !! l = Some c →
  typeof cb = "function" →
  typeof cname = "string" →
  args = [cname; q; o; VObject k l; cb]
  ∨ (args = [cname; q; VObject k l; cb]
     ∧ constructor_is_Array (st_heap s) (VObject k l) = false) →
  ∃ req s1,
    findOne args s = (Ok (Query cname req (VNum 0) (CbFindOne cb)), s1)
    ∧ st_heap s1 !! l =
        Some (if accepts c "$max"
              then Cell (elems c) (<["$max" := VNum 1]> (props c)) (cattrs c)
              else c).
Proof.
  intros Hk Hl Hf Hc Hargs. apply String.eqb_eq in Hf, Hc.
  assert (Hr : ∃ o' s', resolve_arity args s = (Ok (o', VObject k l, cb), s')
                        ∧ extends s s').
  { destruct Hargs as [->|[-> Hk']].
    - exists o, s. split; [done|apply extends_refl].
    - unfold resolve_arity, mbind, M_bind, get_heap.
      cbn -[constructor_is_Array]. rewrite Hk'. run.
      eexists _, _. split; [reflexivity|]. split; [by apply prefix_app_r|done]. }
  destruct Hr as (o' & s' & Hr & Hext).
  assert (H0 : arg args 0 = cname) by (by destruct Hargs as [->|[-> _]]).
  unfold findOne, mbind, M_bind. rewrite Hr. cbn. rewrite H0, Hf, Hc. cbn.
  replace (default_object (VObject k l) s') with (Ok (VObject k l), s')
    by (by destruct k).
  destruct (default_object_ok (arg args 1) s') as (q1 & s2 & -> & Hext2 & _).
  pose proof (extends_lookup _ _ _ _ Hext Hl) as Hl1.
  pose proof (extends_lookup _ _ _ _ Hext2 Hl1) as Hl2.
  run. rewrite Hl2. cbn. destruct (accepts c "$max"); cbn.
  - eexists _, _. split; [reflexivity|]. cbn.
    apply list_lookup_insert_eq. by eapply lookup_lt_Some.
  - by eexists _, _.
Qed.

(** ** C1: the three arities of find *)

Lemma content_prefix h H v :
  h `prefix_of` H → wf h v → content H v = content h v.
Proof.
  intros [ext ->] Hv. destruct v; try done. cbn in *. by rewrite lookup_app_l.
Qed.

Lemma wf_prefix h H v : h `prefix_of` H → wf h v → wf H v.
Proof.
  intros Hp Hv. destruct v; try done. cbn in *.
  apply prefix_length in Hp. lia.
Qed.

Lemma view_prefix h H vs :
  h `prefix_of` H → Forall (wf h) vs → content H <$> vs = content h <$> vs.
Proof.
  intros Hp Hvs. induction Hvs as [|v vs Hv _ IH]; [done|].
  cbn. by rewrite IH, (content_prefix h H v).
Qed.

Lemma spread_prefix h H v :
  h `prefix_of` H → wf h v → spread H v = spread h v.
Proof.
  intros [ext ->] Hv. destruct v as [| | | | |[]|]; try done.
  cbn in *. by rewrite lookup_app_l.
Qed.

Lemma defaulted_content_prefix h H v :
  h `prefix_of` H → wf h v → defaulted_content H v = defaulted_content h v.
Proof.
  intros Hp Hv. unfold defaulted_content.
  destruct (negb (truthy v) || negb (String.eqb (typeof v) "object")); [done|].
  by apply content_prefix.
Qed.

Lemma default_object_content v s :
  wf (st_heap s) v →
  ∃ v' s', default_object v s = (Ok v', s') ∧ extends s s'
           ∧ wf (st_heap s') v'
           ∧ not_nullish v' = true
           ∧ content (st_heap s') v' = defaulted_content (st_heap s) v.
Proof.
  intros Hv. unfold default_object, defaulted_content.
  destruct (negb (truthy v) || negb (String.eqb (typeof v) "object")) eqn:E.
  - eexists _, _. split; [reflexivity|]. cbn.
    split; [split; [by apply prefix_app_r|done]|].
    rewrite length_app. cbn. split; [lia|]. split; [done|].
    by rewrite list_lookup_middle.
  - exists v, s. split; [done|]. split; [apply extends_refl|].
    split; [done|]. split; [by destruct v|done].
Qed.

(** The same for a value that [concat] will splice. *)
Lemma default_object_view v s :
  wf (st_heap s) v →
  Forall (wf (st_heap s)) (spread (st_heap s) v) →
  ∃ v' s', default_object v s = (Ok v', s') ∧ extends s s'
           ∧ wf (st_heap s') v'
           ∧ not_nullish v' = true
           ∧ content (st_heap s') v' = defaulted_content (st_heap s) v
           ∧ Forall (wf (st_heap s')) (spread (st_heap s') v')
           ∧ content (st_heap s') <$> spread (st_heap s') v'
             = hints_view (st_heap s) v.
Proof.
  intros Hv Hvs. unfold default_object, defaulted_content, hints_view.
  destruct (negb (truthy v) || negb (String.eqb (typeof v) "object")) eqn:E.
  - eexists _, _. split; [reflexivity|]. cbn.
    split; [split; [by apply prefix_app_r|done]|].
    rewrite length_app. cbn. split; [lia|]. split; [done|].
    rewrite list_lookup_middle by done. split; [done|].
    split; [|done]. apply Forall_singleton. cbn. rewrite length_app. cbn. lia.
  - exists v, s. split; [done|]. split; [apply extends_refl|].
    split; [done|]. split; [by destruct v|done].
Qed.

Lemma get_prop_content v key s :
  not_nullish v = true →
  get_prop v key s = (Ok (content_prop (content (st_heap s) v) key), s).
Proof.
  intros Hv. destruct v; try done. run. by destruct (st_heap s !! l).
Qed.

(** What a valid [find] hands to the engine, in terms of the outcome
    [(o, hv, cb)] of the arity prologue. *)
Lemma find_request (args : list value) (s s' : state) (o hv cb : value) :
  resolve_arity args s = (Ok (o, hv, cb), s') →
  typeof cb = "function" →
  typeof (arg args 0) = "string" →
  wf (st_heap s') (arg args 1) →
  wf (st_heap s') hv →
  wf (st_heap s') o →
  Forall (wf (st_heap s')) (spread (st_heap s') o) →
  Forall (wf (st_heap s')) (spread (st_heap s') hv) →
  ∃ req s2,
    find ejdblib args s =
      (Ok (Query (arg args 0) req (find_mode ejdblib (st_heap s') hv)
             (CbUser cb)), s2)
    ∧ content (st_heap s2) <$> req =
        request_view (st_heap s') (arg args 1) (spread (st_heap s') o) hv.
Proof.
  intros Hr Hf Hc Hq Hhv Ho Hos Hhs. apply String.eqb_eq in Hf, Hc.
  unfold find, mbind, M_bind. rewrite Hr. cbn. rewrite Hf, Hc. cbn.
  destruct (default_object_view hv s' Hhv Hhs)
    as (hv1 & s1 & -> & (Hp1 & _) & Hwf1 & Hnn1 & Hc1 & Hs1 & Hv1).
  destruct (default_object_content (arg args 1) s1 (wf_prefix _ _ _ Hp1 Hq))
    as (q1 & s2 & -> & (Hp2 & _) & Hwf2 & _ & Hc2).
  unfold concat, get_heap, mbind, M_bind, mret, M_ret.
  cbn -[get_prop spread content]. rewrite (get_prop_content _ _ _ Hnn1).
  rewrite (content_prefix _ _ _ Hp2 Hwf1), Hc1.
  eexists _, _. split; [reflexivity|].
  unfold request_view.
  rewrite fmap_cons, Hc2, (defaulted_content_prefix _ _ _ Hp1 Hq).
  f_equal. rewrite app_nil_r, fmap_app. f_equal.
  - assert (Hp : st_heap s' `prefix_of` st_heap s2) by (by etrans).
    by rewrite (spread_prefix _ _ _ Hp Ho), (view_prefix _ _ _ Hp Hos).
  - by rewrite (spread_prefix _ _ _ Hp2 Hwf1), (view_prefix _ _ _ Hp2 Hs1).
Qed.

(** Two valid [find] calls on the same collection, predicate and handler
    agree as soon as their prologues yield or-arrays with the same elements
    and hints with the same content. *)
Lemma find_same (args1 args2 : list value) (s s1 s2 : state)
    (o1 o2 hv1 hv2 cb : value) :
  arg args1 0 = arg args2 0 →
  arg args1 1 = arg args2 1 →
  typeof cb = "function" →
  typeof (arg args1 0) = "string" →
  wf (st_heap s) (arg args1 1) →
  resolve_arity args1 s = (Ok (o1, hv1, cb), s1) →
  resolve_arity args2 s = (Ok (o2, hv2, cb), s2) →
  st_heap s `prefix_of` st_heap s1 →
  st_heap s `prefix_of` st_heap s2 →
  wf (st_heap s1) hv1 → wf (st_heap s1) o1 →
  Forall (wf (st_heap s1)) (spread (st_heap s1) o1) →
  Forall (wf (st_heap s1)) (spread (st_heap s1) hv1) →
  wf (st_heap s2) hv2 → wf (st_heap s2) o2 →
  Forall (wf (st_heap s2)) (spread (st_heap s2) o2) →
  Forall (wf (st_heap s2)) (spread (st_heap s2) hv2) →
  content (st_heap s1) <$> spread (st_heap s1) o1
    = content (st_heap s2) <$> spread (st_heap s2) o2 →
  defaulted_content (st_heap s1) hv1 = defaulted_content (st_heap s2) hv2 →
  hints_view (st_heap s1) hv1 = hints_view (st_heap s2) hv2 →
  same_dispatch (find ejdblib args1 s) (find ejdblib args2 s).
Proof.
  intros H0 H1 Hf Hc Hq Hr1 Hr2 Hp1 Hp2 Hh1 Ho1 Hs1 Ha1 Hh2 Ho2 Hs2 Ha2 Ho Hh Hv.
  destruct (find_request args1 s s1 o1 hv1 cb Hr1 Hf Hc
              (wf_prefix _ _ _ Hp1 Hq) Hh1 Ho1 Hs1 Ha1) as (r1 & t1 & -> & Hv1).
  rewrite H0 in Hc. rewrite H1 in Hq.
  destruct (find_request args2 s s2 o2 hv2 cb Hr2 Hf Hc
              (wf_prefix _ _ _ Hp2 Hq) Hh2 Ho2 Hs2 Ha2) as (r2 & t2 & -> & Hv2).
  cbn. split; [done|]. split; [|by unfold find_mode; rewrite Hh].
  rewrite Hv1, Hv2, H1. unfold request_view. rewrite Ho, Hv.
  by rewrite (defaulted_content_prefix _ _ _ Hp1 Hq),
             (defaulted_content_prefix _ _ _ Hp2 Hq).
Qed.

Lemma Forall_wf_prefix h H vs :
  h `prefix_of` H → Forall (wf h) vs → Forall (wf H) vs.
Proof.
  intros Hp Hvs. eapply Forall_impl; [exact Hvs|].
  intros v. by apply wf_prefix.
Qed.

Lemma lookup_fresh (h : list cell) c : (h ++ [c]) !! length h = Some c.
Proof. by apply list_lookup_middle. Qed.

Lemma lookup_fresh_under (h : list cell) c1 c2 :
  ((h ++ [c1]) ++ [c2]) !! length h = Some c1.
Proof.
  rewrite lookup_app_l by (rewrite length_app; cbn; lia). apply lookup_fresh.
Qed.

Lemma hints_view_fresh (h : list cell) :
  hints_view (h ++ [empty_cell]) (VObject KPlain (length h))
  = [inr (KPlain, Some empty_cell)].
Proof. unfold hints_view. cbn. by rewrite lookup_fresh. Qed.

(** The prologue on four arguments. *)
Lemma resolve_arity_four (a0 a1 x cb : value) (s : state) :
  resolve_arity [a0; a1; x; cb] s =
    if truthy x && constructor_is_Array (st_heap s) x
    then (Ok (x, VObject KPlain (length (st_heap s)), cb),
          State (st_heap s ++ [empty_cell]) (st_cursors s) (st_trace s))
    else (Ok (VObject KArray (length (st_heap s)), x, cb),
          State (st_heap s ++ [Cell [] ∅ array_attrs])
                (st_cursors s) (st_trace s)).
Proof.
  unfold resolve_arity, mbind, M_bind, get_heap.
  cbn -[constructor_is_Array truthy].
  by destruct (truthy x && constructor_is_Array (st_heap s) x).
Qed.

(** C1 (amended). For a string collection name, a function handler and any
    predicate [q]: the 5-argument call with or-argument [o] and hints [hv]
    hands the engine the request made of the predicate, then the
    or-predicates, then the hints (by content, a predicate or hints that
    are not an object counting as [{}], and an array given as hints being
    spliced like the or-predicates), with mode [JBQRYCOUNT] exactly when
    the hints have a truthy ["$onlycount"]. With an empty array [a] and an
    empty object [e] of the caller, the 3-argument call hands the engine
    what the 5-argument call with [a] and [e] does; and a 4-argument call
    with third argument [x] hands the engine what the 5-argument call does
    with [x] as or-argument and [e] as hints when [x] is truthy and its
    [constructor] is [Array], and with [a] as or-argument and [x] as hints
    otherwise. *)
Theorem find_arities_agree
    (cname q cb : value) (la le : loc) (pa : gmap string value) (aa : attrs)
    (s : state) :
  typeof cb = "function" →
  typeof cname = "string" →
  wf (st_heap s) q →
  st_heap s !! la = Some (Cell [] pa aa) →
  st_heap s !! le = Some empty_cell →
  let a := VObject KArray la in
  let e := VObject KPlain le in
  (∀ o hv,
     wf (st_heap s) o → wf (st_heap s) hv →
     Forall (wf (st_heap s)) (spread (st_heap s) o) →
     Forall (wf (st_heap s)) (spread (st_heap s) hv) →
     dispatches (find ejdblib [cname; q; o; hv; cb] s) cname
       (request_view (st_heap s) q (spread (st_heap s) o) hv)
       (find_mode ejdblib (st_heap s) hv) (CbUser cb))
  ∧ same_dispatch (find ejdblib [cname; q; cb] s)
                  (find ejdblib [cname; q; a; e; cb] s)
  ∧ ∀ x, wf (st_heap s) x → Forall (wf (st_heap s)) (spread (st_heap s) x) →
      if truthy x && constructor_is_Array (st_heap s) x
      then same_dispatch (find ejdblib [cname; q; x; cb] s)
                         (find ejdblib [cname; q; x; e; cb] s)
      else same_dispatch (find ejdblib [cname; q; x; cb] s)
                         (find ejdblib [cname; q; a; x; cb] s).
Proof.
  intros Hf Hc Hq Ha He a e.
  assert (Hla : la < length (st_heap s)) by (by eapply lookup_lt_Some).
  assert (Hle : le < length (st_heap s)) by (by eapply lookup_lt_Some).
  assert (Hsa : spread (st_heap s) a = []) by (cbn; by rewrite Ha).
  assert (Hse : ∀ h, spread h e = [e]) by done.
  assert (Hde : defaulted_content (st_heap s) e = inr (KPlain, Some empty_cell)).
  { unfold defaulted_content. cbn. by rewrite He. }
  assert (Hve : hints_view (st_heap s) e = [inr (KPlain, Some empty_cell)]).
  { unfold hints_view. cbn. by rewrite He. }
  assert (Hr5 : ∀ o hv, resolve_arity [cname; q; o; hv; cb] s = (Ok (o, hv, cb), s))
    by done.
  split; [|split].
  - intros o hv Ho Hhv Hos Hhs.
    destruct (find_request [cname; q; o; hv; cb] s s o hv cb (Hr5 o hv) Hf Hc
                Hq Hhv Ho Hos Hhs) as (req & s2 & -> & Hreq).
    by cbn -[request_view find_mode].
  - assert (Hr3 : resolve_arity [cname; q; cb] s =
                    (Ok (VObject KArray (length (st_heap s)),
                         VObject KPlain (length (st_heap s ++ [Cell [] ∅ array_attrs])), cb),
                     State ((st_heap s ++ [Cell [] ∅ array_attrs]) ++ [empty_cell])
                           (st_cursors s) (st_trace s))) by done.
    apply (find_same [cname; q; cb] [cname; q; a; e; cb] s _ _ _ _ _ _ cb
             eq_refl eq_refl Hf Hc Hq Hr3 (Hr5 a e));
      cbn -[spread content defaulted_content hints_view wf].
    + rewrite <- app_assoc. by apply prefix_app_r.
    + done.
    + cbn. rewrite !length_app. cbn. lia.
    + cbn. rewrite !length_app. cbn. lia.
    + cbn. by rewrite lookup_fresh_under.
    + apply Forall_singleton. cbn. rewrite !length_app. cbn. lia.
    + done.
    + done.
    + by rewrite Hsa.
    + by apply Forall_singleton.
    + cbn. by rewrite lookup_fresh_under, Ha.
    + rewrite Hde. unfold defaulted_content. cbn.
      by rewrite lookup_fresh.
    + by rewrite Hve, hints_view_fresh.
  - intros x Hx Hxs.
    pose proof (resolve_arity_four cname q x cb s) as Hr4.
    destruct (truthy x && constructor_is_Array (st_heap s) x) eqn:Ex.
    + assert (Hp : st_heap s `prefix_of` st_heap s ++ [empty_cell])
        by (by apply prefix_app_r).
      apply (find_same [cname; q; x; cb] [cname; q; x; e; cb] s _ _ _ _ _ _ cb
               eq_refl eq_refl Hf Hc Hq Hr4 (Hr5 x e));
        cbn -[spread content defaulted_content hints_view wf].
      * done.
      * done.
      * cbn. rewrite length_app. cbn. lia.
      * by eapply wf_prefix.
      * rewrite (spread_prefix (st_heap s)) by done.
        by eapply Forall_wf_prefix.
      * apply Forall_singleton. cbn. rewrite length_app. cbn. lia.
      * done.
      * done.
      * done.
      * by apply Forall_singleton.
      * rewrite (spread_prefix (st_heap s)) by done. by apply view_prefix.
      * rewrite Hde. unfold defaulted_content. cbn.
        by rewrite lookup_fresh.
      * by rewrite Hve, hints_view_fresh.
    + assert (Hp : st_heap s `prefix_of` st_heap s ++ [Cell [] ∅ array_attrs])
        by (by apply prefix_app_r).
      apply (find_same [cname; q; x; cb] [cname; q; a; x; cb] s _ _ _ _ _ _ cb
               eq_refl eq_refl Hf Hc Hq Hr4 (Hr5 a x));
        cbn -[spread content defaulted_content hints_view wf].
      * done.
      * done.
      * by eapply wf_prefix.
      * cbn. rewrite length_app. cbn. lia.
      * cbn. by rewrite lookup_fresh.
      * rewrite (spread_prefix (st_heap s)) by done.
        by eapply Forall_wf_prefix.
      * done.
      * done.
      * by rewrite Hsa.
      * done.
      * cbn. by rewrite lookup_fresh, Ha.
      * by apply defaulted_content_prefix.
      * unfold hints_view.
        destruct (negb (truthy x) || negb (String.eqb (typeof x) "object")); [done|].
        rewrite (spread_prefix (st_heap s)) by done. by apply view_prefix.
Qed.

(** ** C6: save writes the identifiers back *)

Lemma assign_step_cell docs ids i h l c :
  h !! l = Some c →
  ∃ p', assign_step docs ids i h !! l = Some (Cell (elems c) p' (cattrs c))
        ∧ ∀ key, key ≠ "_id" → p' !! key = props c !! key.
Proof.
  intros Hl. unfold assign_step.
  destruct (docs !! i) as [[| | | | |k l'|]|]; try (exists (props c); by destruct c).
  destruct (h !! l') as [c'|] eqn:Hl'; [|exists (props c); by destruct c].
  destruct (strict_eq (id_of c') (oid_at ids i) || negb (accepts c' "_id"));
    [exists (props c); by destruct c|].
  destruct (decide (l' = l)) as [->|Hne].
  - rewrite list_lookup_insert_eq by (by eapply lookup_lt_Some).
    assert (c' = c) as -> by congruence.
    eexists. split; [done|]. intros key Hkey. by rewrite lookup_insert_ne.
  - rewrite list_lookup_insert_ne by done. exists (props c). by destruct c.
Qed.

Ltac mstep :=
  repeat (progress (unfold mbind, M_bind, get_index, get_prop, set_prop,
                      get_heap, set_heap, mret, M_ret; cbn)).

Lemma insert_props_elems (h : list cell) l' c' p a l :
  h !! l' = Some c' →
  elems <$> <[l' := Cell (elems c') p a]> h !! l = elems <$> h !! l.
Proof.
  intros Hl'. destruct (decide (l' = l)) as [->|Hne].
  - rewrite list_lookup_insert_eq by (by eapply lookup_lt_Some). by rewrite Hl'.
  - by rewrite list_lookup_insert_ne.
Qed.

(** The loop computes [assign_heap]. *)
Lemma assign_ids_run docs ids la lo n s :
  elems <$> st_heap s !! la = Some docs →
  elems <$> st_heap s !! lo = Some ids →
  assign_ids (VObject KArray la) (VObject KArray lo) n s =
    (Ok tt, State (assign_heap docs ids n (st_heap s)) (st_cursors s) (st_trace s)).
Proof.
  revert s. induction n as [|i IH]; intros s Ha Ho.
  - by destruct s.
  - cbn [assign_ids assign_heap].
    assert (Hstep : ∀ t, st_cursors t = st_cursors s → st_trace t = st_trace s →
              (∀ l, elems <$> st_heap t !! l = elems <$> st_heap s !! l) →
              assign_ids (VObject KArray la) (VObject KArray lo) i t =
                (Ok tt, State (assign_heap docs ids i (st_heap t))
                              (st_cursors s) (st_trace s))).
    { intros t Hc Ht Hh. rewrite IH; rewrite ?Hh; try done. by rewrite Hc, Ht. }
    destruct (st_heap s !! la) as [ca|] eqn:Hla; [|done].
    destruct (st_heap s !! lo) as [co|] eqn:Hlo; [|done].
    cbn in Ha, Ho. injection Ha as Ha. injection Ho as Ho.
    unfold assign_step, id_of. fold (oid_at ids i).
    mstep. rewrite Hla. cbn. rewrite Ha.
    destruct (docs !! i) as [[| | | | |k l'|]|] eqn:Hd; mstep;
      rewrite ?Hlo; cbn; rewrite ?Ho; fold (oid_at ids i);
      try (rewrite Hstep by done; by destruct s).
    1-3, 5: destruct (strict_eq VUndefined (oid_at ids i)); mstep;
      rewrite ?Hlo; cbn; rewrite Hstep by done; by destruct s.
    destruct (st_heap s !! l') as [c'|] eqn:Hl'; cbn.
    + destruct (strict_eq (default VUndefined (props c' !! "_id")) (oid_at ids i));
        mstep; rewrite ?Hlo, ?Hl'; cbn; rewrite ?Ho; fold (oid_at ids i).
      * rewrite Hstep by done. by destruct s.
      * destruct (accepts c' "_id"); cbn.
        -- rewrite Hstep; try done. intros l. cbn. by apply insert_props_elems.
        -- rewrite Hstep by done. by destruct s.
    + destruct (strict_eq VUndefined (oid_at ids i)); mstep;
        rewrite ?Hlo, ?Hl'; cbn; rewrite Hstep by done; by destruct s.
Qed.

Lemma assign_heap_cell docs ids n h l c :
  h !! l = Some c →
  ∃ p', assign_heap docs ids n h !! l = Some (Cell (elems c) p' (cattrs c))
        ∧ ∀ key, key ≠ "_id" → p' !! key = props c !! key.
Proof.
  revert h c. induction n as [|i IH]; intros h c Hl.
  - exists (props c). by destruct c.
  - destruct (assign_step_cell docs ids i h l c Hl) as (p1 & H1 & Hk1).
    destruct (IH _ _ H1) as (p2 & H2 & Hk2).
    exists p2. split; [done|]. intros key Hkey.
    by rewrite Hk2, Hk1.
Qed.

Lemma assign_heap_length docs ids n h :
  length (assign_heap docs ids n h) = length h.
Proof.
  revert h. induction n as [|i IH]; intros h; [done|].
  cbn. rewrite IH. unfold assign_step.
  destruct (docs !! i) as [[| | | | |k l'|]|]; try done.
  destruct (h !! l') as [c'|]; [|done].
  destruct (strict_eq _ _ || negb (accepts c' "_id")); [done|].
  by rewrite length_insert.
Qed.

Lemma strict_eq_true v w : strict_eq v w = true ↔ v = w.
Proof. unfold strict_eq. apply bool_decide_eq_true. Qed.

Lemma assign_step_unchanged docs ids i h l :
  (∀ k c, docs !! i = Some (VObject k l) → h !! l = Some c →
          accepts c "_id" = false ∨ id_of c = oid_at ids i) →
  assign_step docs ids i h !! l = h !! l.
Proof.
  intros H. unfold assign_step.
  destruct (docs !! i) as [[| | | | |k l'|]|]; try done.
  destruct (h !! l') as [c'|] eqn:Hl'; [|done].
  destruct (strict_eq (id_of c') (oid_at ids i)) eqn:E; [done|].
  destruct (accepts c' "_id") eqn:Ea; [|done]. cbn.
  destruct (decide (l' = l)) as [->|Hne]; [|by rewrite list_lookup_insert_ne].
  destruct (H k c' eq_refl Hl') as [H'|H']; [congruence|].
  apply strict_eq_true in H'. congruence.
Qed.

Lemma assign_heap_unchanged docs ids n h l :
  (∀ j k c, j < n → docs !! j = Some (VObject k l) → h !! l = Some c →
            accepts c "_id" = false ∨ id_of c = oid_at ids j) →
  assign_heap docs ids n h !! l = h !! l.
Proof.
  revert h. induction n as [|i IH]; intros h H; [done|].
  cbn. assert (Hs : assign_step docs ids i h !! l = h !! l).
  { apply assign_step_unchanged. intros k c. apply H. lia. }
  rewrite IH; [done|]. intros j k c Hj Hd Hl. rewrite Hs in Hl.
  eapply H; [|done..]. lia.
Qed.

Lemma assign_step_hit docs ids i h k l c :
  docs !! i = Some (VObject k l) → h !! l = Some c →
  accepts c "_id" = true →
  ∃ c', assign_step docs ids i h !! l = Some c' ∧ id_of c' = oid_at ids i.
Proof.
  intros Hd Hl Ha. unfold assign_step. rewrite Hd, Hl, Ha.
  destruct (strict_eq (id_of c) (oid_at ids i)) eqn:E; cbn.
  - exists c. split; [done|]. by apply strict_eq_true.
  - rewrite list_lookup_insert_eq by (by eapply lookup_lt_Some).
    eexists. split; [done|]. unfold id_of. cbn. by rewrite lookup_insert_eq.
Qed.

Lemma assign_step_accepts docs ids i h l c :
  h !! l = Some c → accepts c "_id" = true →
  ∃ c', assign_step docs ids i h !! l = Some c' ∧ accepts c' "_id" = true
        ∧ elems c' = elems c.
Proof.
  intros Hl Ha. unfold assign_step.
  destruct (docs !! i) as [[| | | | |k l'|]|]; try by exists c.
  destruct (h !! l') as [c'|] eqn:Hl'; [|by exists c].
  destruct (strict_eq (id_of c') (oid_at ids i) || negb (accepts c' "_id"));
    [by exists c|].
  destruct (decide (l' = l)) as [->|Hne].
  - rewrite list_lookup_insert_eq by (by eapply lookup_lt_Some).
    assert (c' = c) as -> by congruence.
    eexists. split; [done|]. split; [|done].
    unfold accepts in *. cbn.
    destruct (decide ("_id" ∈ readonly (cattrs c))); [done|].
    by rewrite lookup_insert_eq.
  - rewrite list_lookup_insert_ne by done. by exists c.
Qed.

Lemma assign_heap_first docs ids n h i k l c :
  i < n → docs !! i = Some (VObject k l) → h !! l = Some c →
  accepts c "_id" = true →
  (∀ j k', j < i → docs !! j ≠ Some (VObject k' l)) →
  ∃ c', assign_heap docs ids n h !! l = Some c' ∧ id_of c' = oid_at ids i.
Proof.
  revert h c. induction n as [|m IH]; intros h c Hi Hd Hl Ha Hfirst; [lia|].
  cbn. destruct (decide (i = m)) as [->|Hne].
  - destruct (assign_step_hit docs ids m h k l c Hd Hl Ha) as (c' & Hc' & Hid).
    exists c'. split; [|done]. rewrite assign_heap_unchanged; [done|].
    intros j k' c0 Hj Hdj. by destruct (Hfirst j k' Hj).
  - destruct (assign_step_accepts docs ids m h l c Hl Ha) as (c1 & H1 & Ha1 & _).
    eapply IH; [lia|done..].
Qed.

Lemma save_dispatch (args : list value) (s : state) :
  truthy (arg args 1) = true →
  ∃ j opts s1,
    save args s =
      (Ok (Some (Save (arg args 0) j opts
                   (CbSave j
                      (if String.eqb (typeof (arg args 2)) "function"
                       then arg args 2 else arg args 3)))), s1)
    ∧ extends s s1
    ∧ truthy opts = true
    ∧ typeof opts ≠ "function"
    ∧ (if constructor_is_Array (st_heap s) (arg args 1)
       then j = arg args 1
       else j = VObject KArray (length (st_heap s))
            ∧ st_heap s1 !! length (st_heap s)
              = Some (Cell [arg args 1] ∅ array_attrs)).
Proof.
  intros Hj. unfold save. rewrite Hj. cbn [negb].
  rewrite (bind_ok get_heap _ s (st_heap s) s eq_refl).
  destruct (constructor_is_Array (st_heap s) (arg args 1)) eqn:Ea; cbn [negb].
  - destruct (String.eqb (typeof (arg args 2)) "function") eqn:E;
      [|destruct (truthy (arg args 2)) eqn:Ht]; run; rewrite ?Ht; cbn;
      eexists _, _, _; (split; [reflexivity|]); cbn.
    + split; [split; [by apply prefix_app_r|done]|done].
    + split; [apply extends_refl|]. split; [done|].
      split; [by apply String.eqb_neq|done].
    + split; [split; [by apply prefix_app_r|done]|done].
  - destruct (String.eqb (typeof (arg args 2)) "function") eqn:E;
      [|destruct (truthy (arg args 2)) eqn:Ht]; run; rewrite ?Ht; cbn;
      eexists _, _, _; (split; [reflexivity|]); cbn.
    + split; [split; [rewrite <- app_assoc; by apply prefix_app_r|done]|].
      split; [done|]. split; [done|]. split; [done|].
      apply lookup_fresh_under.
    + split; [split; [by apply prefix_app_r|done]|].
      split; [done|]. split; [by apply String.eqb_neq|]. split; [done|].
      apply lookup_fresh.
    + split; [split; [rewrite <- app_assoc; by apply prefix_app_r|done]|].
      split; [done|]. split; [done|]. split; [done|].
      apply lookup_fresh_under.
Qed.

Lemma get_length_array la c s :
  st_heap s !! la = Some c →
  get_length (VObject KArray la) s
  = (Ok (VNum (Z.of_nat (length (elems c)))), s).
Proof. intros H. unfold get_length, get_heap, mbind, M_bind. cbn. by rewrite H. Qed.

Lemma iterations_length n : iterations to_number (VNum (Z.of_nat n)) = n.
Proof. unfold iterations. cbn. apply Nat2Z.id. Qed.

Lemma get_length_ok v s :
  not_nullish v = true → ∃ len, get_length v s = (Ok len, s).
Proof.
  intros Hv. destruct v as [| | | | |[]|]; try done; by eexists.
Qed.


(** ** C7: one reply, one call of the handler *)

Lemma get_index_ok v i s :
  not_nullish v = true → ∃ x, get_index v i s = (Ok x, s).
Proof.
  intros Hv. destruct v as [| | | | |[]|]; try done; by eexists.
Qed.

(** The loop goes through whatever the heap holds, as long as the engine
    returned some identifiers. *)
Lemma assign_ids_ok jsarr oids n s :
  not_nullish jsarr = true →
  not_nullish oids = true →
  ∃ h', assign_ids jsarr oids n s =
          (Ok tt, State h' (st_cursors s) (st_trace s)).
Proof.
  intros Hj Ho. revert s. induction n as [|i IH]; intros s.
  - exists (st_heap s). by destruct s.
  - cbn [assign_ids].
    destruct (get_index_ok jsarr i s Hj) as [so Hso].
    rewrite (bind_ok _ _ _ _ _ Hso).
    destruct (get_index_ok oids i s Ho) as [oid Hoid].
    assert (Hd : ∃ d : bool,
               (if not_nullish so
                then id ← get_prop so "_id"; oid ← get_index oids i;
                     mret (negb (strict_eq id oid))
                else mret false) s = (Ok d, s)).
    { destruct (not_nullish so) eqn:Hn; [|by eexists].
      rewrite (bind_ok _ _ _ _ _ (get_prop_content _ _ _ Hn)).
      rewrite (bind_ok _ _ _ _ _ Hoid). by eexists. }
    destruct Hd as [d Hd]. rewrite (bind_ok _ _ _ _ _ Hd).
    assert (Hw : ∃ s', (if d then oid ← get_index oids i; set_prop so "_id" oid
                        else mret tt) s = (Ok tt, s')
                       ∧ st_cursors s' = st_cursors s ∧ st_trace s' = st_trace s).
    { destruct d; [|by exists s].
      rewrite (bind_ok _ _ _ _ _ Hoid).
      destruct (not_nullish so) eqn:Hn; [by apply set_prop_ok|].
      cbn in Hd. by injection Hd. }
    destruct Hw as (s' & Hw & Hc & Ht). rewrite (bind_ok _ _ _ _ _ Hw).
    destruct (IH s') as [h' ->]. exists h'. by rewrite Hc, Ht.
Qed.

Lemma count_calls_snoc f tr args :
  count_calls f (tr ++ [EvCall f args]) = count_calls f tr + 1.
Proof.
  unfold count_calls. rewrite List.filter_app, length_app. cbn.
  by rewrite bool_decide_eq_true_2.
Qed.

Lemma call_counts l args s :
  count_calls (VObject KFunction l)
    (st_trace (call behaviour (VObject KFunction l) args s).2)
  = count_calls (VObject KFunction l) (st_trace s) + 1.
Proof. rewrite call_function. cbn. apply count_calls_snoc. Qed.

Lemma cursor_next_eq c cur s :
  st_cursors s !! c = Some cur →
  cursor_next (VCursor c) s =
    (Ok (VBool (c_pos cur <? length (c_records cur))),
     State (st_heap s)
           (if c_pos cur <? length (c_records cur)
            then <[c := Cursor (c_records cur) (S (c_pos cur))]> (st_cursors s)
            else st_cursors s)
           (st_trace s ++ [EvNext c])).
Proof.
  intros Hs. unfold cursor_next, with_cursor. rewrite Hs.
  unfold mbind, M_bind, log. cbn [st_heap st_cursors st_trace].
  by destruct (c_pos cur <? length (c_records cur)).
Qed.

Lemma cursor_object_eq c cur s :
  st_cursors s !! c = Some cur →
  cursor_object (VCursor c) s =
    (Ok (default VNull (c_records cur !! (c_pos cur - 1))),
     State (st_heap s) (st_cursors s) (st_trace s ++ [EvObject c])).
Proof. intros Hs. unfold cursor_object, with_cursor. by rewrite Hs. Qed.

Lemma cursor_close_eq c cur s :
  st_cursors s !! c = Some cur →
  cursor_close (VCursor c) s =
    (Ok tt, State (st_heap s) (st_cursors s) (st_trace s ++ [EvClose c])).
Proof. intros Hs. unfold cursor_close, with_cursor. by rewrite Hs. Qed.

Lemma try_finally_eq {A} (body : M A) (fin : M unit) s r s1 s2 :
  body s = (r, s1) → fin s1 = (Ok tt, s2) → try_finally body fin s = (r, s2).
Proof. intros Hb Hfin. unfold try_finally. by rewrite Hb, Hfin. Qed.

(** Every callback of the wrapper calls a function handler once per
    reply. *)
Lemma run_callback_once (k : callback) (cb : value) (reply : list value) (s : state) :
  handler_of k = Some cb →
  typeof cb = "function" →
  batch_ok k →
  reply_ok k reply s →
  count_calls cb (st_trace (run_callback behaviour to_number k reply s).2)
  = count_calls cb (st_trace s) + 1.
Proof.
  intros Hk Hf Hb Hr. destruct (typeof_function _ Hf) as [l ->].
  destruct k as [cb'| |jsarr cb'|cb'|cb'|cb']; cbn in Hk; try discriminate;
    injection Hk as ->; cbn [run_callback].
  - apply call_counts.
  - cbn [truthy]. destruct (truthy (arg reply 0)) eqn:Herr; [apply call_counts|].
    specialize (Hr Herr). cbn in Hb.
    destruct (get_length_ok jsarr s Hb) as [len Hlen].
    rewrite (bind_ok _ _ _ _ _ Hlen).
    destruct (assign_ids_ok jsarr (arg reply 1) (iterations to_number len) s Hb Hr)
      as [h' Hh'].
    rewrite (bind_ok _ _ _ _ _ Hh'). by rewrite call_counts.
  - destruct (truthy (arg reply 0)) eqn:Herr; [apply call_counts|].
    destruct (Hr Herr) as (c & cur & Hc & Hs). rewrite Hc.
    rewrite (bind_ok _ _ _ _ _ (cursor_next_eq c cur s Hs)). cbn [truthy].
    destruct (c_pos cur <? length (c_records cur)).
    + erewrite try_finally_eq.
      2:{ erewrite bind_ok by (apply cursor_object_eq; cbn; apply lookup_insert_eq).
          apply call_function. }
      2:{ apply cursor_close_eq with (cur := Cursor (c_records cur) (S (c_pos cur))).
          cbn. apply lookup_insert_eq. }
      cbn. rewrite <- !app_assoc. cbn.
      unfold count_calls. rewrite List.filter_app, length_app. cbn.
      by rewrite bool_decide_eq_true_2.
    + rewrite call_counts. cbn.
      unfold count_calls. rewrite List.filter_app, length_app. cbn. lia.
  - destruct (truthy (arg reply 0)); apply call_counts.
  - destruct (truthy (arg reply 0)) eqn:Herr; [apply call_counts|].
    destruct (Hr Herr) as (c & cur & Hc & Hs). rewrite Hc.
    rewrite (bind_ok _ _ _ _ _ (cursor_close_eq c cur s Hs)).
    rewrite call_counts. cbn.
    unfold count_calls. rewrite List.filter_app, length_app. cbn. lia.
Qed.

Lemma quiet_ret {A} (a : A) : quiet (mret a).
Proof. intros s r s' H. by injection H as _ <-. Qed.

Lemma quiet_throw {A} e : quiet (throw e : M A).
Proof. intros s r s' H. by injection H as _ <-. Qed.

Lemma quiet_bind {A B} (m : M A) (f : A → M B) :
  quiet m → (∀ a, quiet (f a)) → quiet (m ≫= f).
Proof.
  intros Hm Hf s r s' H. unfold mbind, M_bind in H.
  destruct (m s) as [[a|e] s1] eqn:E.
  - destruct (Hm _ _ _ E) as [Ht Hc]. destruct (Hf a _ _ _ H) as [Ht' Hc'].
    split; congruence.
  - injection H as _ <-. by apply (Hm _ _ _ E).
Qed.

Lemma quiet_alloc k c : quiet (alloc k c).
Proof. intros s r s' H. by injection H as _ <-. Qed.

Lemma quiet_get_heap : quiet get_heap.
Proof. intros s r s' H. by injection H as _ <-. Qed.

Lemma quiet_set_heap h : quiet (set_heap h).
Proof. intros s r s' H. by injection H as _ <-. Qed.

Lemma quiet_get_prop v key : quiet (get_prop v key).
Proof.
  destruct v; try apply quiet_throw; try apply quiet_ret.
  apply quiet_bind; [apply quiet_get_heap|]. intros h. apply quiet_ret.
Qed.

Lemma quiet_set_prop v key x : quiet (set_prop v key x).
Proof.
  destruct v; try apply quiet_throw; try apply quiet_ret.
  apply quiet_bind; [apply quiet_get_heap|]. intros h. cbn.
  destruct (h !! l) as [c|]; [|apply quiet_ret].
  destruct (accepts c key); [apply quiet_set_heap|apply quiet_ret].
Qed.

Lemma quiet_concat xs args : quiet (concat xs args).
Proof.
  apply quiet_bind; [apply quiet_get_heap|]. intros h. apply quiet_ret.
Qed.

Lemma quiet_default_object v : quiet (default_object v).
Proof.
  unfold default_object. destruct (_ || _); [apply quiet_alloc|apply quiet_ret].
Qed.

Lemma quiet_resolve_arity args : quiet (resolve_arity args).
Proof.
  unfold resolve_arity.
  repeat first
    [ apply quiet_ret | apply quiet_alloc | apply quiet_get_heap
    | apply quiet_bind; [|intros ?]
    | match goal with |- quiet (if ?b then _ else _) => destruct b end ].
Qed.

Ltac quiet_steps :=
  repeat first
    [ apply quiet_ret | apply quiet_throw | apply quiet_alloc
    | apply quiet_get_heap
    | apply quiet_resolve_arity | apply quiet_default_object
    | apply quiet_concat | apply quiet_get_prop | apply quiet_set_prop
    | apply quiet_bind; [|intros ?]
    | match goal with
      | |- quiet (if ?b then _ else _) => destruct b
      | |- quiet (let '(_, _) := ?p in _) => destruct p
      end ].

Lemma quiet_public_call m args : quiet (public_call ejdblib m args).
Proof.
  destruct m; unfold public_call, removeCollection, save, load, remove, sync,
    find, findOne, update, count, setIndex; cbn zeta; quiet_steps.
Qed.

Lemma yields_ret {A} (P : A → Prop) a : P a → yields P (mret a).
Proof. intros H s a' s' E. by injection E as <- _. Qed.

Lemma yields_throw {A} (P : A → Prop) e : yields P (throw e).
Proof. by intros s a s' E. Qed.

Lemma yields_bind {A B} (P : B → Prop) (m : M A) (f : A → M B) :
  (∀ a, yields P (f a)) → yields P (m ≫= f).
Proof.
  intros Hf s b s' E. unfold mbind, M_bind in E.
  destruct (m s) as [[a|e] s1]; [by eapply Hf|done].
Qed.

Lemma yields_bind_with {A B} (Q : A → Prop) (P : B → Prop) (m : M A)
    (f : A → M B) :
  yields Q m → (∀ a, Q a → yields P (f a)) → yields P (m ≫= f).
Proof.
  intros Hm Hf s b s' E. unfold mbind, M_bind in E.
  destruct (m s) as [[a|e] s1] eqn:Ea; [|done].
  eapply Hf; [|done]. by eapply Hm.
Qed.

Ltac yields_steps :=
  repeat first
    [ apply yields_throw
    | by apply yields_ret
    | apply yields_bind; intros ?
    | match goal with
      | |- yields _ (if ?b then _ else _) => destruct b
      | |- yields _ (let '(_, _) := ?p in _) => destruct p
      end ].

(** Every callback built by a public method holds a batch that is not
    [null] or [undefined]. *)
Lemma public_call_batch_ok m args s c s1 :
  public_call ejdblib m args s = (Ok (Some c), s1) → batch_ok (ec_callback c).
Proof.
  intros H.
  assert (Hsave : m = MSave → batch_ok (ec_callback c)).
  { intros ->. cbn in H. destruct (truthy (arg args 1)) eqn:Hj.
    - destruct (save_dispatch args s Hj) as (j & o' & s' & Hs & _ & _ & _ & Hw).
      rewrite Hs in H. injection H as <- _. cbn.
      destruct (constructor_is_Array (st_heap s) (arg args 1));
        [|by destruct Hw as [-> _]].
      subst j. by destruct (arg args 1).
    - unfold save in H. by rewrite Hj in H. }
  assert (Hy : m ≠ MSave →
               yields (λ r, ∀ c, r = Some c → batch_ok (ec_callback c))
                 (public_call ejdblib m args)).
  { intros Hm. destruct m; try done; unfold public_call;
      apply (yields_bind_with (λ c, batch_ok (ec_callback c)));
      try (intros a Ha; apply yields_ret; by intros ? [= <-]);
      unfold removeCollection, load, remove, sync,
        find, findOne, update, count, setIndex; cbn zeta; yields_steps.
    apply yields_ret. cbn. by destruct (negb (truthy v0)). }
  destruct m; try (by apply Hsave); by eapply Hy.
Qed.

(** C7 (amended). Whenever a public method hands a request to the engine
    with a callback that holds a function handler, the method itself has
    not called the handler, and one reply of the engine (with a live cursor
    for a successful [findOne] or [count], and some identifiers for a
    successful [save]) makes the callback call that handler exactly
    once. *)
Theorem handler_invoked_once_per_reply
    (m : method) (args : list value) (s0 s1 : state) (c : engine_call)
    (cb : value) :
  public_call ejdblib m args s0 = (Ok (Some c), s1) →
  handler_of (ec_callback c) = Some cb →
  typeof cb = "function" →
  st_trace s1 = st_trace s0
  ∧ (∀ reply s,
       reply_ok (ec_callback c) reply s →
       count_calls cb (st_trace (run_callback behaviour to_number (ec_callback c) reply s).2)
       = count_calls cb (st_trace s) + 1)
  ∧ (∀ reply,
       reply_ok (ec_callback c) reply s1 →
       count_calls cb (st_trace (operation ejdblib behaviour to_number m args reply s0).2)
       = count_calls cb (st_trace s0) + 1).
Proof.
  intros Hcall Hk Hf.
  destruct (quiet_public_call m args _ _ _ Hcall) as [Ht _].
  pose proof (public_call_batch_ok _ _ _ _ _ Hcall) as Hb.
  split; [done|]. split.
  - intros reply s. by apply run_callback_once.
  - intros reply Hr. unfold operation, mbind, M_bind. rewrite Hcall, <- Ht.
    by apply run_callback_once.
Qed.

(** * Further properties of the wrapper *)

(** ** The query methods share one request *)

(** X1. A valid call sends the engine the same collection name and the same
    request array, from the same resulting state, whether it is made through
    [find], [count] or [update]; the three differ in the mode flag and in
    the callback only, and [find]'s mode is [JBQRYCOUNT] or 0. *)
Theorem find_count_update_share_request (args : list value) (s : state) :
  typeof (resolved_handler args) = "function" →
  typeof (arg args 0) = "string" →
  ∃ req mode s1,
    find ejdblib args s =
      (Ok (Query (arg args 0) req mode (CbUser (resolved_handler args))), s1)
    ∧ count ejdblib args s =
        (Ok (Query (arg args 0) req (VNum (JBQRYCOUNT ejdblib))
               (CbCount (resolved_handler args))), s1)
    ∧ update ejdblib args s =
        (Ok (Query (arg args 0) req (VNum (JBQRYCOUNT ejdblib))
               (CbUpdate (resolved_handler args))), s1)
    ∧ (mode = VNum (JBQRYCOUNT ejdblib) ∨ mode = VNum 0).
Proof.
  intros Hf Hc. apply String.eqb_eq in Hf, Hc.
  enter args s o h s' Hr Hext. rewrite Hf, Hc. cbn.
  destruct (default_object_ok h s') as (h1 & s1 & -> & _ & Hn).
  destruct (default_object_ok (arg args 1) s1) as (q1 & s2 & -> & _ & _).
  unfold concat, get_heap, mbind, M_bind, mret, M_ret.
  cbn -[get_prop spread]. rewrite (get_prop_content _ _ _ Hn).
  eexists _, _, _. repeat split.
  destruct (truthy _); [by left|by right].
Qed.

(** ** What the synchronous part of a call never does *)

(** X2. The synchronous part of every public method, whatever its
    arguments and whether it returns or throws, calls no function and
    touches no cursor: the handler can only run from an engine callback. *)
Theorem public_call_is_silent (m : method) (args : list value) (s : state) :
  st_trace (public_call ejdblib m args s).2 = st_trace s
  ∧ st_cursors (public_call ejdblib m args s).2 = st_cursors s.
Proof.
  destruct (public_call ejdblib m args s) as [r s'] eqn:E.
  exact (quiet_public_call m args s r s' E).
Qed.

Lemma find_callback args s c s1 :
  find ejdblib args s = (Ok c, s1) →
  ec_callback c = CbUser (resolved_handler args).
Proof.
  enter args s o h s' Hr Hext.
  destruct (negb (String.eqb (typeof (resolved_handler args)) "function"));
    [discriminate|].
  destruct (negb (String.eqb (typeof (arg args 0)) "string")); [discriminate|].
  cbn.
  destruct (default_object_ok h s') as (h1 & t1 & -> & _ & Hn).
  destruct (default_object_ok (arg args 1) t1) as (q1 & t2 & -> & _ & _).
  unfold concat, get_heap, mbind, M_bind, mret, M_ret.
  cbn -[get_prop spread]. rewrite (get_prop_content _ _ _ Hn).
  intros H. by injection H as <- _.
Qed.

(** ** Methods that hand the caller's handler to the engine *)

(** X3. [load], [remove], [sync], the index methods and [find] give the
    engine the caller's handler itself (for [find], the handler resolved by
    the arity prologue): when that handler is a function, the arguments of
    the engine's reply reach it unchanged, in one call, and the wrapper
    calls no cursor method, so a cursor returned to [find] is left open for
    the caller. *)
Theorem reply_passed_through
    (m : method) (args : list value) (s0 s1 : state) (c : engine_call) :
  m ∈ [MLoad; MRemove; MFind; MSync] ∨ (∃ i, m = MIndex i) →
  public_call ejdblib m args s0 = (Ok (Some c), s1) →
  ∃ cb,
    ec_callback c = CbUser cb
    ∧ cb = match m with
           | MFind => resolved_handler args
           | MSync => arg args 0
           | _ => arg args 2
           end
    ∧ ∀ l reply s,
        cb = VObject KFunction l →
        st_trace (run_callback behaviour to_number (ec_callback c) reply s).2
          = st_trace s ++ [EvCall cb reply]
        ∧ st_cursors (run_callback behaviour to_number (ec_callback c) reply s).2
          = st_cursors s.
Proof.
  intros Hm Hcall.
  assert (Hcb : ec_callback c = CbUser match m with
                                       | MFind => resolved_handler args
                                       | MSync => arg args 0
                                       | _ => arg args 2
                                       end).
  { destruct Hm as [Hm|[i ->]].
    - repeat (apply elem_of_cons in Hm as [->|Hm]); [..|by apply elem_of_nil in Hm].
      + cbn in Hcall. by injection Hcall as <- _.
      + cbn in Hcall. by injection Hcall as <- _.
      + unfold public_call, mbind, M_bind in Hcall.
        destruct (find ejdblib args s0) as [[c'|e] s'] eqn:E; [|discriminate].
        injection Hcall as <- _. by eapply find_callback.
      + cbn in Hcall. by injection Hcall as <- _.
    - cbn in Hcall. by injection Hcall as <- _. }
  eexists. split; [exact Hcb|]. split; [done|].
  intros l reply s Hl. rewrite Hcb, Hl. cbn [run_callback].
  by rewrite call_function.
Qed.

(** X4. When the engine reports a failure to a valid [findOne] call, the
    callback calls the handler with the error as its only argument and
    calls no cursor method. *)
Theorem findOne_failure_reports_error (args : list value) (s0 : state) :
  typeof (resolved_handler args) = "function" →
  typeof (arg args 0) = "string" →
  ∃ req s1,
    findOne args s0 =
      (Ok (Query (arg args 0) req (VNum 0) (CbFindOne (resolved_handler args))), s1)
    ∧ ∀ reply s,
        truthy (arg reply 0) = true →
        st_trace (run_callback behaviour to_number (CbFindOne (resolved_handler args)) reply s).2
          = st_trace s ++ [EvCall (resolved_handler args) [arg reply 0]]
        ∧ st_cursors (run_callback behaviour to_number (CbFindOne (resolved_handler args)) reply s).2
          = st_cursors s.
Proof.
  intros Hf Hc.
  destruct (findOne_dispatch args s0 Hf Hc) as (req & s1 & Hd).
  destruct (typeof_function _ Hf) as [l Hl].
  exists req, s1. split; [done|].
  intros reply s Herr. rewrite Hl. cbn [run_callback]. rewrite Herr.
  by rewrite call_function.
Qed.

(** ** save: argument normalisation and the optional handler *)

(** X5. [save] with a truthy documents argument always reaches the engine:
    with the caller's own value as the batch when its [constructor] is
    [Array], and with a fresh one-element array around it otherwise; with
    an options value that is truthy and not a function; and with the third
    argument as handler exactly when it is a function. *)
Theorem save_normalises_arguments (args : list value) (s : state) :
  truthy (arg args 1) = true →
  ∃ j opts s1,
    save args s =
      (Ok (Some (Save (arg args 0) j opts
                   (CbSave j
                      (if String.eqb (typeof (arg args 2)) "function"
                       then arg args 2 else arg args 3)))), s1)
    ∧ extends s s1
    ∧ truthy opts = true
    ∧ typeof opts ≠ "function"
    ∧ (if constructor_is_Array (st_heap s) (arg args 1)
       then j = arg args 1
       else j = VObject KArray (length (st_heap s))
            ∧ st_heap s1 !! length (st_heap s)
              = Some (Cell [arg args 1] ∅ array_attrs)).
Proof. apply save_dispatch. Qed.

Lemma run_save_success la cb reply s docs pa aa lo ids po ao :
  truthy (arg reply 0) = false →
  arg reply 1 = VObject KArray lo →
  st_heap s !! la = Some (Cell docs pa aa) →
  st_heap s !! lo = Some (Cell ids po ao) →
  run_callback behaviour to_number (CbSave (VObject KArray la) cb) reply s =
    (if truthy cb then call behaviour cb [arg reply 0; arg reply 1]
     else mret tt)
      (State (assign_heap docs ids (length docs) (st_heap s))
             (st_cursors s) (st_trace s)).
Proof.
  intros Herr Hoids Hla Hlo. cbn [run_callback]. rewrite Herr, Hoids.
  rewrite (bind_ok _ _ _ _ _ (get_length_array la _ s Hla)). cbn [elems].
  rewrite iterations_length.
  by rewrite (bind_ok _ _ _ _ _ (assign_ids_run docs ids la lo (length docs) s
                ltac:(by rewrite Hla) ltac:(by rewrite Hlo))).
Qed.

(** X6. [save] of a single object whose [constructor] is not [Array] wraps
    it in a fresh one-element array; on success, if the object accepts the
    assignment, the callback writes the first returned identifier into that
    very object, keeping its elements, its attributes and every other
    property, before the handler runs. *)
Theorem save_single_document
    (args : list value) (k : kind) (ld : loc) (s0 : state) :
  arg args 1 = VObject k ld →
  constructor_is_Array (st_heap s0) (VObject k ld) = false →
  ∃ opts cb s1,
    let la := length (st_heap s0) in
    save args s0 =
      (Ok (Some (Save (arg args 0) (VObject KArray la) opts
                   (CbSave (VObject KArray la) cb))), s1)
    ∧ st_heap s1 !! la = Some (Cell [VObject k ld] ∅ array_attrs)
    ∧ ∀ reply s pa aa lo ids po ao c,
        truthy (arg reply 0) = false →
        arg reply 1 = VObject KArray lo →
        st_heap s !! la = Some (Cell [VObject k ld] pa aa) →
        st_heap s !! lo = Some (Cell ids po ao) →
        st_heap s !! ld = Some c →
        accepts c "_id" = true →
        ∃ h' p',
          run_callback behaviour to_number (CbSave (VObject KArray la) cb) reply s =
            (if truthy cb then call behaviour cb [arg reply 0; arg reply 1]
             else mret tt) (State h' (st_cursors s) (st_trace s))
          ∧ h' !! ld = Some (Cell (elems c) p' (cattrs c))
          ∧ default VUndefined (p' !! "_id") = oid_at ids 0
          ∧ ∀ key, key ≠ "_id" → p' !! key = props c !! key.
Proof.
  intros Hdoc Hk.
  destruct (save_dispatch args s0) as (j & opts & s1 & Hsave & _ & _ & _ & Hwrap).
  { by rewrite Hdoc. }
  rewrite Hdoc, Hk in Hwrap. destruct Hwrap as [-> Hs1].
  eexists opts, _, s1. cbn zeta. split; [exact Hsave|]. split; [done|].
  intros reply s pa aa lo ids po ao c Herr Hoids Hla Hlo Hld Hacc.
  destruct (assign_heap_cell [VObject k ld] ids 1 (st_heap s) ld c Hld)
    as (p' & Hp' & Hkeys).
  destruct (assign_heap_first [VObject k ld] ids 1 (st_heap s) 0 k ld c)
    as (c' & Hc' & Hid); [lia|done|done|done|intros j k' Hj; lia|].
  exists (assign_heap [VObject k ld] ids 1 (st_heap s)), p'.
  split; [by eapply run_save_success|]. split; [done|]. split; [|done].
  rewrite Hp' in Hc'. injection Hc' as <-. exact Hid.
Qed.

(** X7. [save] with no handler is fire-and-forget. When the third argument
    is not a function and the fourth is falsy, the callback handed to the
    engine never throws and calls nothing: a failure reply leaves the state
    as it is, and a success reply that carries identifiers only updates the
    heap, whatever the batch contains (null entries, primitives, repeated
    objects, objects that refuse the assignment). The batch is the caller's
    own value when its [constructor] is [Array], and a fresh array
    otherwise. *)
Theorem save_without_handler_is_silent (args : list value) (s0 : state) :
  truthy (arg args 1) = true →
  typeof (arg args 2) ≠ "function" →
  truthy (arg args 3) = false →
  ∃ j opts s1,
    save args s0 =
      (Ok (Some (Save (arg args 0) j opts (CbSave j (arg args 3)))), s1)
    ∧ j = (if constructor_is_Array (st_heap s0) (arg args 1)
           then arg args 1 else VObject KArray (length (st_heap s0)))
    ∧ ∀ reply s,
        (truthy (arg reply 0) = true →
         run_callback behaviour to_number (CbSave j (arg args 3)) reply s
           = (Ok tt, s))
        ∧ (truthy (arg reply 0) = false →
           not_nullish (arg reply 1) = true →
           ∃ h',
             run_callback behaviour to_number (CbSave j (arg args 3)) reply s
               = (Ok tt, State h' (st_cursors s) (st_trace s))).
Proof.
  intros Hj Hf Hcb. apply String.eqb_neq in Hf.
  destruct (save_dispatch args s0 Hj) as (j & opts & s1 & Hsave & _ & _ & _ & Hw).
  rewrite Hf in Hsave.
  assert (Hjv : j = (if constructor_is_Array (st_heap s0) (arg args 1)
                     then arg args 1 else VObject KArray (length (st_heap s0)))).
  { destruct (constructor_is_Array (st_heap s0) (arg args 1)); [done|].
    by destruct Hw. }
  assert (Hnn : not_nullish j = true).
  { rewrite Hjv. destruct (constructor_is_Array _ _); [|done].
    by destruct (arg args 1). }
  exists j, opts, s1. split; [exact Hsave|]. split; [exact Hjv|].
  intros reply s. split.
  - intros Herr. cbn. by rewrite Herr, Hcb.
  - intros Herr Hoids. cbn [run_callback]. rewrite Herr, Hcb.
    destruct (get_length_ok j s Hnn) as [len Hlen].
    rewrite (bind_ok _ _ _ _ _ Hlen).
    destruct (assign_ids_ok j (arg reply 1) (iterations to_number len) s Hnn Hoids)
      as [h' Hh'].
    rewrite (bind_ok _ _ _ _ _ Hh'). by exists h'.
Qed.

(** ** removeCollection *)

(** X8. [removeCollection] with exactly two arguments always takes the
    second as the handler and asks for no pruning, so
    [removeCollection(c, x)] is [removeCollection(c, false, x)] for every
    [x], a boolean included. Without a truthy handler the engine gets a
    function that does nothing, so its reply is dropped and nothing is
    thrown; with one, the reply goes to that handler. *)
Theorem removeCollection_arities (cname x prune : value) (reply : list value)
    (s : state) :
  removeCollection [cname; x] s = removeCollection [cname; VBool false; x] s
  ∧ (∃ k, removeCollection [cname; x] s =
            (Ok (RemoveCollection cname (VBool false) k), s))
  ∧ operation ejdblib behaviour to_number MRemoveCollection [cname] reply s = (Ok tt, s)
  ∧ operation ejdblib behaviour to_number MRemoveCollection [cname; prune; x] reply s
    = (if truthy x then call behaviour x reply s else (Ok tt, s)).
Proof.
  split; [done|]. split; [by eexists|]. split; [done|].
  unfold operation, public_call, removeCollection, mbind, M_bind.
  cbn. by destruct (truthy x).
Qed.

(** ** What a call leaves untouched *)

Lemma extending_ret {A} (a : A) : extending (mret a).
Proof. intros s r s' H. injection H as _ <-. apply extends_refl. Qed.

Lemma extending_throw {A} e : extending (throw e : M A).
Proof. intros s r s' H. injection H as _ <-. apply extends_refl. Qed.

Lemma extending_bind {A B} (m : M A) (f : A → M B) :
  extending m → (∀ a, extending (f a)) → extending (m ≫= f).
Proof.
  intros Hm Hf s r s' H. unfold mbind, M_bind in H.
  destruct (m s) as [[a|e] s1] eqn:E.
  - destruct (Hm _ _ _ E) as (Hp & Hc & Ht).
    destruct (Hf a _ _ _ H) as (Hp' & Hc' & Ht').
    split; [by etrans|]. split; congruence.
  - injection H as _ <-. by apply (Hm _ _ _ E).
Qed.

Lemma extending_alloc k c : extending (alloc k c).
Proof.
  intros s r s' H. injection H as _ <-. split; [by apply prefix_app_r|done].
Qed.

Lemma extending_get_heap : extending get_heap.
Proof. intros s r s' H. injection H as _ <-. apply extends_refl. Qed.

Lemma extending_get_prop v key : extending (get_prop v key).
Proof.
  destruct v; try apply extending_throw; try apply extending_ret.
  apply extending_bind; [apply extending_get_heap|]. intros h. apply extending_ret.
Qed.

Lemma extending_concat xs args : extending (concat xs args).
Proof.
  apply extending_bind; [apply extending_get_heap|]. intros h. apply extending_ret.
Qed.

Ltac extending_steps :=
  repeat first
    [ apply extending_ret | apply extending_throw | apply extending_alloc
    | apply extending_get_heap
    | apply extending_concat | apply extending_get_prop
    | apply extending_bind; [|intros ?]
    | match goal with
      | |- extending (if ?b then _ else _) => destruct b
      | |- extending (let '(_, _) := ?p in _) => destruct p
      end ].

(** X9. The synchronous part of every public method other than [findOne]
    writes into no object of the caller: the heap it returns with is the
    heap it was called with, followed by the cells it allocated itself. *)
Theorem public_call_keeps_caller_heap
    (m : method) (args : list value) (s : state) :
  m ≠ MFindOne →
  extends s (public_call ejdblib m args s).2.
Proof.
  intros Hm.
  assert (H : extending (public_call ejdblib m args)).
  { destruct m; try done;
      unfold public_call, removeCollection, save, load, remove, sync,
        find, update, count, setIndex, resolve_arity, default_object,
        new_object, new_array; cbn zeta; extending_steps. }
  destruct (public_call ejdblib m args s) as [r s'] eqn:E. exact (H s r s' E).
Qed.

Lemma keeps_except_ret key {A} (a : A) : keeps_except key (mret a).
Proof.
  intros s r s' l c H Hl. injection H as _ <-.
  exists (props c). by destruct c.
Qed.

Lemma keeps_except_throw key {A} e : keeps_except key (throw e : M A).
Proof.
  intros s r s' l c H Hl. injection H as _ <-.
  exists (props c). by destruct c.
Qed.

Lemma keeps_except_bind key {A B} (m : M A) (f : A → M B) :
  keeps_except key m → (∀ a, keeps_except key (f a)) →
  keeps_except key (m ≫= f).
Proof.
  intros Hm Hf s r s' l c H Hl. unfold mbind, M_bind in H.
  destruct (m s) as [[a|e] s1] eqn:E.
  - destruct (Hm _ _ _ _ _ E Hl) as (p1 & H1 & Hk1).
    destruct (Hf a _ _ _ _ _ H H1) as (p2 & H2 & Hk2).
    exists p2. split; [done|]. intros k Hk. cbn in Hk2. by rewrite Hk2, Hk1.
  - injection H as _ <-. by apply (Hm _ _ _ _ _ E).
Qed.

Lemma keeps_except_extending key {A} (m : M A) :
  extending m → keeps_except key m.
Proof.
  intros Hm s r s' l c H Hl. destruct (Hm _ _ _ H) as (Hp & _).
  exists (props c). split; [|done].
  destruct c. by eapply prefix_lookup_Some.
Qed.

Lemma keeps_except_set_prop key v x : keeps_except key (set_prop v key x).
Proof.
  destruct v; try apply keeps_except_throw; try apply keeps_except_ret.
  intros s r s' l' c H Hl. unfold set_prop, mbind, M_bind, get_heap in H.
  destruct (st_heap s !! l) as [c0|] eqn:E.
  - destruct (accepts c0 key).
    + injection H as _ <-. cbn. destruct (decide (l = l')) as [->|Hne].
      * rewrite list_lookup_insert_eq by (by eapply lookup_lt_Some).
        assert (c0 = c) as -> by congruence.
        eexists. split; [done|]. intros k' Hk. by rewrite lookup_insert_ne.
      * rewrite list_lookup_insert_ne by done. exists (props c). by destruct c.
    + injection H as _ <-. exists (props c). by destruct c.
  - injection H as _ <-. exists (props c). by destruct c.
Qed.

(** X10. [findOne] changes nothing in the caller's heap but the ["$max"]
    property: whatever the arguments, and whether the call returns or
    throws, every object keeps its elements, its attributes and every
    property other than ["$max"], and cursors and trace are as before. *)
Theorem findOne_writes_max_only
    (args : list value) (s : state) (l : loc) (c : cell) :
  st_heap s !! l = Some c →
  (∃ p', st_heap (findOne args s).2 !! l = Some (Cell (elems c) p' (cattrs c))
         ∧ ∀ k, k ≠ "$max" → p' !! k = props c !! k)
  ∧ st_cursors (findOne args s).2 = st_cursors s
  ∧ st_trace (findOne args s).2 = st_trace s.
Proof.
  intros Hl.
  assert (H : keeps_except "$max" (findOne args)).
  { unfold findOne, resolve_arity, default_object, new_object, new_array.
    repeat first
      [ apply keeps_except_ret | apply keeps_except_throw
      | apply keeps_except_set_prop
      | apply keeps_except_extending; extending_steps; fail
      | apply keeps_except_bind; [|intros ?]
      | match goal with
        | |- keeps_except _ (if ?b then _ else _) => destruct b
        | |- keeps_except _ (let '(_, _) := ?p in _) => destruct p
        end ]. }
  assert (Hq : quiet (findOne args)).
  { unfold findOne. quiet_steps. }
  destruct (findOne args s) as [r s'] eqn:E. cbn.
  split; [by eapply H|]. destruct (Hq s r s' E). by split.
Qed.

(** ** find: the request as the engine receives it *)

(** X11. [find] with five arguments, an object as predicate and an object
    as hints allocates nothing and sends the engine the predicate, then
    what [concat] makes of the or-argument and of the hints: the elements
    of an array, or the value itself. So an or-argument that is not an
    array ([null], [undefined], a plain object) becomes a request element
    of its own, and an array passed as hints is spliced into the request.
    The mode is [JBQRYCOUNT] exactly when the hints object has a truthy
    ["$onlycount"]. *)
Theorem find_proper_arguments
    (cname q o cb : value) (kh : kind) (lh : loc) (s : state) :
  typeof cb = "function" →
  typeof cname = "string" →
  truthy q = true →
  typeof q = "object" →
  kh ≠ KFunction →
  find ejdblib [cname; q; o; VObject kh lh; cb] s =
    (Ok (Query cname
           (q :: spread (st_heap s) o ++ spread (st_heap s) (VObject kh lh))
           (if truthy (default VUndefined
                         (c ← st_heap s !! lh; props c !! "$onlycount"))
            then VNum (JBQRYCOUNT ejdblib) else VNum 0)
           (CbUser cb)), s).
Proof.
  intros Hf Hc Hq Hqo Hk. apply String.eqb_eq in Hf, Hc, Hqo.
  unfold find.
  rewrite (bind_ok _ _ s (o, VObject kh lh, cb) s eq_refl).
  change (arg [cname; q; o; VObject kh lh; cb] 0) with cname.
  change (arg [cname; q; o; VObject kh lh; cb] 1) with q.
  cbn beta iota. rewrite Hf, Hc. cbn [negb].
  assert (Hh : default_object (VObject kh lh) s = (Ok (VObject kh lh), s))
    by (by destruct kh).
  assert (Hq' : default_object q s = (Ok q, s))
    by (unfold default_object; by rewrite Hq, Hqo).
  rewrite (bind_ok _ _ _ _ _ Hh), (bind_ok _ _ _ _ _ Hq').
  unfold concat, get_prop, get_heap, mbind, M_bind, mret, M_ret.
  cbn -[spread]. by rewrite app_nil_r.
Qed.

Lemma arg_wf h args i : Forall (wf h) args → wf h (arg args i).
Proof.
  intros H. unfold arg. destruct (args !! i) as [v|] eqn:E; [|done].
  cbn. eapply Forall_lookup_1; eauto.
Qed.

(** The outcome of the arity prologue on well-formed arguments. *)
Lemma resolve_arity_shape (args : list value) (s : state) :
  Forall (wf (st_heap s)) args →
  Forall (wf (st_heap s)) (spread (st_heap s) (arg args 2)) →
  length args = 3 ∨ length args = 4
  ∨ is_array (arg args 3) = false →
  ∃ o hv s',
    resolve_arity args s = (Ok (o, hv, resolved_handler args), s')
    ∧ st_heap s `prefix_of` st_heap s'
    ∧ wf (st_heap s') o
    ∧ wf (st_heap s') hv
    ∧ Forall (wf (st_heap s')) (spread (st_heap s') o)
    ∧ Forall (wf (st_heap s')) (spread (st_heap s') hv).
Proof.
  intros Hargs Hsp Hlen. unfold resolve_arity, resolved_handler.
  pose proof (arg_wf _ _ 2 Hargs) as H2.
  pose proof (arg_wf _ _ 3 Hargs) as H3.
  destruct (length args =? 4) eqn:E4.
  - rewrite (bind_ok get_heap _ s (st_heap s) s eq_refl).
    destruct (truthy (arg args 2) && constructor_is_Array (st_heap s) (arg args 2)).
    + run. eexists _, _, _. split; [reflexivity|]. cbn -[spread].
      assert (Hp : st_heap s `prefix_of` st_heap s ++ [empty_cell])
        by (by apply prefix_app_r).
      split; [done|]. split; [by eapply wf_prefix|].
      split; [cbn; rewrite length_app; cbn; lia|]. split.
      * rewrite (spread_prefix (st_heap s)) by done. by eapply Forall_wf_prefix.
      * apply Forall_singleton. cbn. rewrite length_app. cbn. lia.
    + run. eexists _, _, _. split; [reflexivity|]. cbn -[spread].
      assert (Hp : st_heap s `prefix_of` st_heap s ++ [Cell [] ∅ array_attrs])
        by (by apply prefix_app_r).
      split; [done|]. split; [cbn; rewrite length_app; cbn; lia|].
      split; [by eapply wf_prefix|]. split.
      * cbn. by rewrite lookup_fresh.
      * rewrite (spread_prefix (st_heap s)) by done. by eapply Forall_wf_prefix.
  - destruct (length args =? 3) eqn:E3.
    + run. eexists _, _, _. split; [reflexivity|]. cbn.
      split; [rewrite <- app_assoc; by apply prefix_app_r|].
      split; [rewrite !length_app; cbn; lia|].
      split; [rewrite !length_app; cbn; lia|]. split.
      * by rewrite lookup_fresh_under.
      * apply Forall_singleton. cbn. rewrite !length_app. cbn. lia.
    + run. exists (arg args 2), (arg args 3), s. split; [done|].
      split; [done|]. split; [done|]. split; [done|]. split; [done|].
      apply Nat.eqb_neq in E4, E3. destruct Hlen as [?|[?|Ha]]; [lia|lia|].
      replace (spread (st_heap s) (arg args 3)) with [arg args 3]
        by (by destruct (arg args 3) as [| | | | |[]|]).
      by apply Forall_singleton.
Qed.

(** X12. A predicate that is not an object ([null], [undefined], a number,
    a string, a boolean, a function) is replaced by a fresh [{}]: on
    well-formed arguments whose hints are not an array, [find] sends the
    engine the same request and mode as with an empty object of the caller
    in its place. *)
Theorem find_defaults_predicate
    (cname q : value) (rest : list value) (le : loc) (s : state) :
  typeof (resolved_handler (cname :: q :: rest)) = "function" →
  typeof cname = "string" →
  negb (truthy q) || negb (String.eqb (typeof q) "object") = true →
  wf (st_heap s) q →
  st_heap s !! le = Some empty_cell →
  Forall (wf (st_heap s)) rest →
  Forall (wf (st_heap s)) (spread (st_heap s) (arg (cname :: q :: rest) 2)) →
  length rest = 1 ∨ length rest = 2
  ∨ is_array (arg (cname :: q :: rest) 3) = false →
  same_dispatch (find ejdblib (cname :: q :: rest) s)
                (find ejdblib (cname :: VObject KPlain le :: rest) s).
Proof.
  intros Hf Hc Hq Hwq Hle Hrest Hsp Hlen.
  assert (Hwe : wf (st_heap s) (VObject KPlain le)) by (by eapply lookup_lt_Some).
  destruct (resolve_arity_shape (cname :: q :: rest) s)
    as (o & hv & s' & Hr & Hp & Ho & Hhv & Hos & Hhs).
  { constructor; [|by constructor]. destruct cname; try done.
    cbn in Hc. by destruct k. }
  { done. }
  { cbn. destruct Hlen as [?|[?|?]]; [left; lia|right; left; lia|by right; right]. }
  assert (Hr' : resolve_arity (cname :: VObject KPlain le :: rest) s
                = (Ok (o, hv, resolved_handler (cname :: q :: rest)), s'))
    by exact Hr.
  destruct (find_request _ s s' o hv _ Hr Hf Hc (wf_prefix _ _ _ Hp Hwq)
              Hhv Ho Hos Hhs) as (r1 & t1 & -> & Hv1).
  destruct (find_request _ s s' o hv _ Hr' Hf Hc (wf_prefix _ _ _ Hp Hwe)
              Hhv Ho Hos Hhs) as (r2 & t2 & -> & Hv2).
  cbn -[content find_mode]. split; [done|]. split; [|done].
  rewrite Hv1, Hv2. unfold request_view.
  change (arg (cname :: q :: rest) 1) with q.
  change (arg (cname :: VObject KPlain le :: rest) 1) with (VObject KPlain le).
  f_equal. unfold defaulted_content at 1 2. rewrite Hq. cbn.
  by rewrite (prefix_lookup_Some _ _ _ _ Hle Hp).
Qed.

(** ** findOne: the hints it makes up *)

Lemma accepts_plain c key : cattrs c = plain_attrs → accepts c key = true.
Proof.
  intros H. unfold accepts. rewrite H. cbn.
  destruct (decide (key ∈ (∅ : gset string))) as [Hin|_];
    [by apply not_elem_of_empty in Hin|].
  apply orb_true_r.
Qed.

Lemma findOne_after_prologue
    (args : list value) (s s' : state) (o cb : value) (lh : loc) (c : cell) :
  resolve_arity args s = (Ok (o, VObject KPlain lh, cb), s') →
  typeof cb = "function" →
  typeof (arg args 0) = "string" →
  st_heap s' !! lh = Some c →
  accepts c "$max" = true →
  ∃ req s1,
    findOne args s = (Ok (Query (arg args 0) req (VNum 0) (CbFindOne cb)), s1)
    ∧ last req = Some (VObject KPlain lh)
    ∧ st_heap s1 !! lh
      = Some (Cell (elems c) (<["$max" := VNum 1]> (props c)) (cattrs c)).
Proof.
  intros Hr Hf Hc Hl Hacc. apply String.eqb_eq in Hf, Hc.
  unfold findOne. rewrite (bind_ok _ _ _ _ _ Hr). cbn beta iota.
  rewrite Hf, Hc. cbn [negb].
  rewrite (bind_ok _ _ s' (VObject KPlain lh) s' eq_refl).
  destruct (default_object_ok (arg args 1) s') as (q1 & s2 & Hq & Hext & _).
  rewrite (bind_ok _ _ _ _ _ Hq).
  pose proof (extends_lookup _ _ _ _ Hext Hl) as Hl2.
  run. rewrite Hl2. cbn -[spread]. rewrite Hacc. cbn -[spread].
  eexists _, _. split; [reflexivity|].
  split.
  - rewrite app_comm_cons. apply last_snoc.
  - cbn. apply list_lookup_insert_eq. by eapply lookup_lt_Some.
Qed.

(** X13. A valid [findOne] call that names no hints (three arguments, or
    four with a truthy third argument whose [constructor] is [Array]) ends
    its request with an object of its own making, allocated during the
    call, that holds ["$max" = 1] and nothing else. *)
Theorem findOne_fresh_hints (args : list value) (s : state) :
  typeof (resolved_handler args) = "function" →
  typeof (arg args 0) = "string" →
  length args = 3
  ∨ (length args = 4
     ∧ truthy (arg args 2) && constructor_is_Array (st_heap s) (arg args 2) = true) →
  ∃ req s1 lh,
    findOne args s =
      (Ok (Query (arg args 0) req (VNum 0) (CbFindOne (resolved_handler args))), s1)
    ∧ last req = Some (VObject KPlain lh)
    ∧ length (st_heap s) ≤ lh
    ∧ st_heap s1 !! lh = Some (Cell [] {["$max" := VNum 1]} plain_attrs).
Proof.
  intros Hf Hc Hlen.
  assert (Hr : ∃ o lh s',
             resolve_arity args s = (Ok (o, VObject KPlain lh, resolved_handler args), s')
             ∧ length (st_heap s) ≤ lh ∧ st_heap s' !! lh = Some empty_cell).
  { unfold resolve_arity, resolved_handler. destruct Hlen as [->|[-> Ha]].
    - run. eexists _, _, _. split; [reflexivity|]. cbn.
      split; [rewrite length_app; lia|apply lookup_fresh].
    - cbn [Nat.eqb]. rewrite (bind_ok get_heap _ s (st_heap s) s eq_refl).
      rewrite Ha. run. eexists _, _, _. split; [reflexivity|]. cbn.
      split; [lia|apply lookup_fresh]. }
  destruct Hr as (o & lh & s' & Hr & Hfresh & Hl).
  destruct (findOne_after_prologue args s s' o _ lh empty_cell Hr Hf Hc Hl
              (accepts_plain empty_cell _ eq_refl))
    as (req & s1 & Hd & Hlast & Hmax).
  exists req, s1, lh.
  change (props empty_cell) with (∅ : gmap string value) in Hmax.
  change (elems empty_cell) with ([] : list value) in Hmax.
  change (cattrs empty_cell) with plain_attrs in Hmax.
  by rewrite insert_empty in Hmax.
Qed.

(** ** The index methods *)

Lemma js_bitor_small a b :
  (0 < a < 2 ^ 31)%Z → (0 < b < 2 ^ 31)%Z → js_bitor a b = Z.lor a b.
Proof.
  intros Ha Hb. unfold js_bitor, to_int32.
  rewrite !Z.mod_small by lia. f_equal; lia.
Qed.

(** Tell two flag words apart by the bits of the constant [X]. *)
Ltac split_by X :=
  let H := fresh in
  intros H; apply (f_equal (λ w, Z.land w X)) in H; revert H;
  cbn beta; rewrite ?Z.land_lor_distr_l;
  repeat match goal with
         | E : Z.land ?a ?b = 0%Z |- context [Z.land ?a ?b] => rewrite E
         | E : Z.land ?a ?b = 0%Z |- context [Z.land ?b ?a] =>
             rewrite (Z.land_comm b a), E
         end;
  rewrite ?Z.land_diag, ?Z.lor_0_l, ?Z.lor_0_r; lia.

(** X14. When the index flag constants of the native module are non-zero
    31-bit words with no bit in common, as single-bit flags are, no two of
    the fourteen index methods send the engine the same flag word. *)
Theorem index_flags_injective (m1 m2 : index_method) :
  disjoint_flags (index_constants ejdblib) →
  index_flags ejdblib m1 = index_flags ejdblib m2 →
  m1 = m2.
Proof.
  unfold index_constants. cbn [disjoint_flags].
  rewrite !Forall_cons, !Forall_nil.
  intros H. destruct_and!.
  revert m1 m2.
  assert (Hneq : ∀ m1 m2, m1 ≠ m2 → index_flags ejdblib m1 ≠ index_flags ejdblib m2).
  { intros m1 m2 Hm. destruct m1, m2; try done; clear Hm;
      unfold index_flags; rewrite ?js_bitor_small by done;
      first [ split_by (JBIDXDROP ejdblib) | split_by (JBIDXDROPALL ejdblib)
            | split_by (JBIDXOP ejdblib) | split_by (JBIDXREBLD ejdblib)
            | split_by (JBIDXNUM ejdblib) | split_by (JBIDXSTR ejdblib)
            | split_by (JBIDXARR ejdblib) | split_by (JBIDXISTR ejdblib) ]. }
  intros m1 m2 Heq.
  destruct m1, m2; try reflexivity; exfalso;
    (eapply Hneq; [|exact Heq]); discriminate.
Qed.

(** ** The exported constants *)

Lemma starts_with_JB_prefix k : starts_with_JB k = String.prefix "JB" k.
Proof.
  unfold starts_with_JB. destruct k as [|a k]; [done|].
  cbn [String.index]. destruct (String.prefix "JB" (String a k)); [done|].
  by destruct (String.index 0 "JB" k).
Qed.

(** X15. After the export loop, the [EJDB] function carries, under the same
    name and with the same value, every property of the native module whose
    name begins with "JB", and [DEFAULT_OPEN_MODE]; every other property it
    had is untouched and no other property of the module is copied. *)
Theorem export_constants_lookup
    (exports statics : gmap string value) (default_mode : value) (k : string) :
  export_constants exports default_mode statics !! k =
    if decide (k = "DEFAULT_OPEN_MODE") then Some default_mode
    else if String.prefix "JB" k
         then match exports !! k with
              | Some v => Some v
              | None => statics !! k
              end
         else statics !! k.
Proof.
  unfold export_constants. rewrite lookup_insert.
  destruct (decide ("DEFAULT_OPEN_MODE" = k)) as [<-|Hne].
  - by rewrite decide_True.
  - rewrite decide_False by done. rewrite <- starts_with_JB_prefix. clear Hne.
    revert k.
    apply (map_fold_weak_ind
             (λ r m, ∀ k, r !! k = if starts_with_JB k
                                   then match m !! k with
                                        | Some v => Some v
                                        | None => statics !! k
                                        end
                                   else statics !! k)).
    + intros k. rewrite lookup_empty. by destruct (starts_with_JB k).
    + intros i x m r Hi IH k. destruct (decide (i = k)) as [->|Hik].
      * rewrite lookup_insert_eq. destruct (starts_with_JB k) eqn:E.
        -- by rewrite lookup_insert_eq.
        -- by rewrite IH, E.
      * rewrite (lookup_insert_ne m) by done.
        destruct (starts_with_JB i); [rewrite lookup_insert_ne by done|];
          apply IH.
Qed.

(** ** Replaying a reply, and surplus arguments *)

(** X16. Applying a success reply of [save] a second time changes nothing.
    For a batch whose objects are pairwise distinct and a callback without
    handler, the state reached by one run of the callback is a fixed point
    of the callback on the same reply. *)
Theorem save_reply_idempotent
    (la lo : loc) (cb : value) (reply : list value) (s : state)
    (docs ids : list value) (pa po : gmap string value) (aa ao : attrs) :
  truthy cb = false →
  truthy (arg reply 0) = false →
  arg reply 1 = VObject KArray lo →
  st_heap s !! la = Some (Cell docs pa aa) →
  st_heap s !! lo = Some (Cell ids po ao) →
  (∀ i j k k' l, docs !! i = Some (VObject k l) →
                 docs !! j = Some (VObject k' l) → i = j) →
  ∃ s1,
    run_callback behaviour to_number (CbSave (VObject KArray la) cb) reply s = (Ok tt, s1)
    ∧ run_callback behaviour to_number (CbSave (VObject KArray la) cb) reply s1 = (Ok tt, s1).
Proof.
  intros Hcb Herr Hoids Hla Hlo Hdistinct.
  set (h1 := assign_heap docs ids (length docs) (st_heap s)).
  destruct (assign_heap_cell docs ids (length docs) _ la _ Hla) as (pa1 & Hla1 & _).
  destruct (assign_heap_cell docs ids (length docs) _ lo _ Hlo) as (po1 & Hlo1 & _).
  fold h1 in Hla1, Hlo1. cbn in Hla1, Hlo1.
  exists (State h1 (st_cursors s) (st_trace s)). split.
  - rewrite (run_save_success la cb reply s docs pa aa lo ids po ao) by done.
    by rewrite Hcb.
  - rewrite (run_save_success la cb reply _ docs pa1 aa lo ids po1 ao) by done.
    rewrite Hcb. cbn. f_equal. f_equal.
    apply list_eq. intros l. apply assign_heap_unchanged.
    intros j k c Hj Hd Hl.
    assert (is_Some (st_heap s !! l)) as [c0 Hc0].
    { apply lookup_lt_is_Some. apply lookup_lt_Some in Hl.
      unfold h1 in Hl. by rewrite assign_heap_length in Hl. }
    destruct (accepts c0 "_id") eqn:Hacc.
    + right.
      destruct (assign_heap_first docs ids (length docs) (st_heap s) j k l c0)
        as (c' & Hc' & Hid); [done..| |].
      * intros j' k' Hlt Hd'. specialize (Hdistinct _ _ _ _ _ Hd' Hd). lia.
      * fold h1 in Hc'. congruence.
    + left. assert (Hsame : h1 !! l = Some c0).
      { unfold h1. rewrite assign_heap_unchanged; [done|].
        intros j' k' c1 _ _ Hc1. left. congruence. }
      congruence.
Qed.

(** X17. [find], [findOne], [update] and [count] read five arguments:
    whatever follows the fifth changes neither the outcome nor the
    state. *)
Theorem surplus_arguments_ignored
    (a0 a1 a2 a3 a4 : value) (extra : list value) (s : state) :
  find ejdblib (a0 :: a1 :: a2 :: a3 :: a4 :: extra) s
    = find ejdblib [a0; a1; a2; a3; a4] s
  ∧ findOne (a0 :: a1 :: a2 :: a3 :: a4 :: extra) s
    = findOne [a0; a1; a2; a3; a4] s
  ∧ update ejdblib (a0 :: a1 :: a2 :: a3 :: a4 :: extra) s
    = update ejdblib [a0; a1; a2; a3; a4] s
  ∧ count ejdblib (a0 :: a1 :: a2 :: a3 :: a4 :: extra) s
    = count ejdblib [a0; a1; a2; a3; a4] s.
Proof. by repeat split. Qed.

End Properties.

(** * Closed examples on the sample session *)

Lemma invalid_argument_thrown_synchronously_witness :
  let args := [VStr "books"; VObject KPlain 0] in
  ((MFind ∈ [MFind; MFindOne; MCount]
    ∧ typeof (resolved_handler args) ≠ "function")
   ∨ (MFind ∈ [MFind; MFindOne; MUpdate; MCount]
      ∧ typeof (arg args 0) ≠ "string"))
  ∧ ∃ e s', public_call sample_constants MFind args sample_state = (Throw e, s')
            ∧ invalid_argument e ∧ extends sample_state s'.
Proof.
  intros args.
  assert (H : (MFind ∈ [MFind; MFindOne; MCount]
               ∧ typeof (resolved_handler args) ≠ "function")
              ∨ (MFind ∈ [MFind; MFindOne; MUpdate; MCount]
                 ∧ typeof (arg args 0) ≠ "string")).
  { left. split; [apply list_elem_of_here|]. vm_compute. discriminate. }
  split; [exact H|].
  exact (invalid_argument_thrown_synchronously sample_constants MFind args
           sample_state H).
Defined.

Lemma find_arities_agree_witness :
  let cname := VStr "books" in
  let q := VObject KPlain 0 in
  let cb := sample_handler in
  let s := sample_state in
  typeof cb = "function"
  ∧ typeof cname = "string"
  ∧ wf (st_heap s) q
  ∧ st_heap s !! 2 = Some (Cell [] ∅ array_attrs)
  ∧ st_heap s !! 3 = Some empty_cell
  ∧ (let a := VObject KArray 2 in
     let e := VObject KPlain 3 in
     (∀ o hv,
        wf (st_heap s) o → wf (st_heap s) hv →
        Forall (wf (st_heap s)) (spread (st_heap s) o) →
        Forall (wf (st_heap s)) (spread (st_heap s) hv) →
        dispatches (find sample_constants [cname; q; o; hv; cb] s) cname
          (request_view (st_heap s) q (spread (st_heap s) o) hv)
          (find_mode sample_constants (st_heap s) hv) (CbUser cb))
     ∧ same_dispatch (find sample_constants [cname; q; cb] s)
                     (find sample_constants [cname; q; a; e; cb] s)
     ∧ ∀ x, wf (st_heap s) x → Forall (wf (st_heap s)) (spread (st_heap s) x) →
         if truthy x && constructor_is_Array (st_heap s) x
         then same_dispatch (find sample_constants [cname; q; x; cb] s)
                            (find sample_constants [cname; q; x; e; cb] s)
         else same_dispatch (find sample_constants [cname; q; x; cb] s)
                            (find sample_constants [cname; q; a; x; cb] s)).
Proof.
  intros cname q cb s.
  assert (Hf : typeof cb = "function") by reflexivity.
  assert (Hc : typeof cname = "string") by reflexivity.
  assert (Hq : wf (st_heap s) q) by (vm_compute; lia).
  assert (Ha : st_heap s !! 2 = Some (Cell [] ∅ array_attrs)) by reflexivity.
  assert (He : st_heap s !! 3 = Some empty_cell) by reflexivity.
  repeat (split; [assumption|]).
  exact (find_arities_agree sample_constants cname q cb 2 3 ∅ array_attrs s
           Hf Hc Hq Ha He).
Defined.

(** C1, as stated, fails: the 4-argument form does not look at what the
    third argument is but at its [constructor] property. An array of
    another realm (cell 11) is taken as hints and spliced, so the request
    has no hints object and differs from the 5-argument call with it as
    or-array; an object with [constructor] set to [Array] (cell 12) is
    taken as or-array, so its ["$onlycount"] is not read and the mode is 0,
    unlike the 5-argument call with it as hints. *)
Lemma find_third_argument_by_constructor :
  let cname := VStr "books" in
  let q := VObject KPlain 0 in
  let cb := sample_handler in
  let a := VObject KArray 2 in
  let e := VObject KPlain 3 in
  let x := VObject KArray 11 in
  let y := VObject KPlain 12 in
  let s := exotic_state in
  (is_array x = true
   ∧ (find sample_constants [cname; q; x; cb] s).1
     = Ok (Query cname [q; VObject KPlain 0] (VNum 0) (CbUser cb))
   ∧ (find sample_constants [cname; q; x; e; cb] s).1
     = Ok (Query cname [q; VObject KPlain 0; e] (VNum 0) (CbUser cb))
   ∧ ¬ same_dispatch (find sample_constants [cname; q; x; cb] s)
                     (find sample_constants [cname; q; x; e; cb] s))
  ∧ (is_array y = false
     ∧ (find sample_constants [cname; q; y; cb] s).1
       = Ok (Query cname [q; y; VObject KPlain 15] (VNum 0) (CbUser cb))
     ∧ (find sample_constants [cname; q; a; y; cb] s).1
       = Ok (Query cname [q; y] (VNum 1) (CbUser cb))
     ∧ ¬ same_dispatch (find sample_constants [cname; q; y; cb] s)
                       (find sample_constants [cname; q; a; y; cb] s)).
Proof.
  repeat split; try (vm_compute; reflexivity).
  - intros H. vm_compute in H. destruct H as (_ & H & _). discriminate H.
  - intros H. vm_compute in H. destruct H as (_ & H & _). discriminate H.
Qed.

Lemma findOne_match_closes_once_witness :
  let args := [VStr "books"; VObject KPlain 0; sample_handler] in
  typeof (resolved_handler args) = "function"
  ∧ typeof (arg args 0) = "string"
  ∧ ∃ req s1 l,
      resolved_handler args = VObject KFunction l
      ∧ findOne args sample_state =
          (Ok (Query (arg args 0) req (VNum 0) (CbFindOne (resolved_handler args))), s1)
      ∧ ∀ reply s c d rest,
          truthy (arg reply 0) = false →
          arg reply 1 = VCursor c →
          st_cursors s !! c = Some (Cursor (d :: rest) 0) →
          let out := run_callback throws not_a_number (CbFindOne (resolved_handler args)) reply s in
          st_trace out.2 =
            st_trace s ++ [EvNext c; EvObject c;
                           EvCall (resolved_handler args) [VNull; d]; EvClose c]
          ∧ count_closes c (st_trace out.2) = count_closes c (st_trace s) + 1
          ∧ out.1 = match (throws l [VNull; d] (st_heap s)).2 with
                    | None => Ok tt
                    | Some v => Throw (Thrown v)
                    end.
Proof.
  intros args.
  assert (Hf : typeof (resolved_handler args) = "function") by reflexivity.
  assert (Hc : typeof (arg args 0) = "string") by reflexivity.
  repeat (split; [assumption|]).
  exact (findOne_match_closes_once throws not_a_number args sample_state Hf Hc).
Defined.

Lemma findOne_no_match_yields_null_witness :
  let args := [VStr "books"; VObject KPlain 0; VObject KPlain 4; sample_handler] in
  typeof (resolved_handler args) = "function"
  ∧ typeof (arg args 0) = "string"
  ∧ ∃ req s1 l,
      resolved_handler args = VObject KFunction l
      ∧ findOne args sample_state =
          (Ok (Query (arg args 0) req (VNum 0) (CbFindOne (resolved_handler args))), s1)
      ∧ ∀ reply s c pos,
          truthy (arg reply 0) = false →
          arg reply 1 = VCursor c →
          st_cursors s !! c = Some (Cursor [] pos) →
          let out := run_callback returns not_a_number (CbFindOne (resolved_handler args)) reply s in
          st_trace out.2 =
            st_trace s ++ [EvNext c; EvCall (resolved_handler args) [VNull; VNull]]
          ∧ count_closes c (st_trace out.2) = count_closes c (st_trace s)
          ∧ out.1 = match (returns l [VNull; VNull] (st_heap s)).2 with
                    | None => Ok tt
                    | Some v => Throw (Thrown v)
                    end.
Proof.
  intros args.
  assert (Hf : typeof (resolved_handler args) = "function") by reflexivity.
  assert (Hc : typeof (arg args 0) = "string") by reflexivity.
  repeat (split; [assumption|]).
  exact (findOne_no_match_yields_null returns not_a_number args sample_state Hf Hc).
Defined.

Lemma count_closes_cursor_once_witness :
  let args := [VStr "books"; VObject KPlain 0; sample_handler] in
  typeof (resolved_handler args) = "function"
  ∧ typeof (arg args 0) = "string"
  ∧ ∃ req s1,
      count sample_constants args sample_state =
        (Ok (Query (arg args 0) req (VNum (JBQRYCOUNT sample_constants))
               (CbCount (resolved_handler args))), s1)
      ∧ ∀ reply s,
          let out := run_callback returns not_a_number (CbCount (resolved_handler args)) reply s in
          (truthy (arg reply 0) = false →
           ∀ c cur, arg reply 1 = VCursor c → st_cursors s !! c = Some cur →
             st_trace out.2 =
               st_trace s ++ [EvClose c;
                              EvCall (resolved_handler args) [VNull; arg reply 2]]
             ∧ count_closes c (st_trace out.2) = count_closes c (st_trace s) + 1)
          ∧ (truthy (arg reply 0) = true →
             st_trace out.2 =
               st_trace s ++ [EvCall (resolved_handler args) [arg reply 0]]).
Proof.
  intros args.
  assert (Hf : typeof (resolved_handler args) = "function") by reflexivity.
  assert (Hc : typeof (arg args 0) = "string") by reflexivity.
  repeat (split; [assumption|]).
  exact (count_closes_cursor_once sample_constants returns not_a_number args sample_state Hf Hc).
Defined.

Lemma update_counts_and_forwards_log_witness :
  let args := [VStr "books"; VObject KPlain 0; VObject KPlain 4; sample_handler] in
  typeof (arg args 0) = "string"
  ∧ ∃ req cb s1,
      update sample_constants args sample_state =
        (Ok (Query (arg args 0) req (VNum (JBQRYCOUNT sample_constants))
               (CbUpdate cb)), s1)
      ∧ (typeof (resolved_handler args) = "function" →
         cb = resolved_handler args
         ∧ ∀ reply s2,
             st_trace (run_callback returns not_a_number (CbUpdate cb) reply s2).2 =
               st_trace s2 ++
                 [EvCall cb (if truthy (arg reply 0)
                             then [arg reply 0; VNull; arg reply 3]
                             else [VNull; arg reply 2; arg reply 3])]).
Proof.
  intros args.
  assert (Hc : typeof (arg args 0) = "string") by reflexivity.
  split; [assumption|].
  exact (update_counts_and_forwards_log sample_constants returns not_a_number args sample_state Hc).
Defined.

Lemma findOne_overwrites_caller_max_witness :
  let cname := VStr "books" in
  let q := VObject KPlain 0 in
  let o := VObject KArray 2 in
  let cb := sample_handler in
  let c := Cell [] (<["$max" := VNum 10]> {["$onlycount" := VBool true]})
             plain_attrs in
  let args := [cname; q; o; VObject KPlain 4; cb] in
  KPlain ≠ KFunction
  ∧ st_heap sample_state !! 4 = Some c
  ∧ typeof cb = "function"
  ∧ typeof cname = "string"
  ∧ (args = [cname; q; o; VObject KPlain 4; cb]
     ∨ (args = [cname; q; VObject KPlain 4; cb]
        ∧ constructor_is_Array (st_heap sample_state) (VObject KPlain 4) = false))
  ∧ ∃ req s1,
      findOne args sample_state = (Ok (Query cname req (VNum 0) (CbFindOne cb)), s1)
      ∧ st_heap s1 !! 4 =
          Some (if accepts c "$max"
                then Cell (elems c) (<["$max" := VNum 1]> (props c)) (cattrs c)
                else c).
Proof.
  intros cname q o cb c args.
  assert (Hk : KPlain ≠ KFunction) by discriminate.
  assert (Hl : st_heap sample_state !! 4 = Some c) by reflexivity.
  assert (Hf : typeof cb = "function") by reflexivity.
  assert (Hc : typeof cname = "string") by reflexivity.
  assert (Hargs : args = [cname; q; o; VObject KPlain 4; cb]
                  ∨ (args = [cname; q; VObject KPlain 4; cb]
                     ∧ constructor_is_Array (st_heap sample_state)
                         (VObject KPlain 4) = false))
    by (left; reflexivity).
  repeat (split; [assumption|]).
  exact (findOne_overwrites_caller_max args cname q o cb KPlain 4 c sample_state
           Hk Hl Hf Hc Hargs).
Defined.

(** C10, as stated, fails: the assignment of line 347 runs in sloppy mode,
    so on frozen hints (cell 10) it is dropped without an error. The call
    reaches the engine, and the caller's object still holds the ["$max"] it
    had. *)
Lemma findOne_frozen_hints_keep_max :
  let args := [VStr "books"; VObject KPlain 0; VObject KArray 2;
               VObject KPlain 10; sample_handler] in
  let out := findOne args exotic_state in
  typeof (VObject KPlain 10) = "object"
  ∧ out.1 = Ok (Query (VStr "books") [VObject KPlain 0; VObject KPlain 10]
                  (VNum 0) (CbFindOne sample_handler))
  ∧ st_heap out.2 !! 10 = st_heap exotic_state !! 10
  ∧ (∃ c, st_heap out.2 !! 10 = Some c ∧ props c !! "$max" = Some (VNum 10))
  ∧ ¬ (∃ c, st_heap out.2 !! 10 = Some c ∧ props c !! "$max" = Some (VNum 1)).
Proof.
  repeat split; try (vm_compute; reflexivity).
  - eexists. split; vm_compute; reflexivity.
  - intros (c & Hc & Hmax). vm_compute in Hc. injection Hc as <-.
    vm_compute in Hmax. discriminate Hmax.
Qed.



(** The batch of the sample session after a successful [save]: both
    documents carry the identifier returned at their index, next to the
    field they had. *)
Example save_sample_batch :
  let out := operation sample_constants returns not_a_number MSave
               [VStr "books"; VObject KArray 7; sample_handler]
               [VNull; VObject KArray 8] sample_state in
  out.1 = Ok tt
  ∧ st_heap out.2 !! 5 =
      Some (Cell [] (<["_id" := VStr "5098a1"]> {["a" := VNum 1]}) plain_attrs)
  ∧ st_heap out.2 !! 6 =
      Some (Cell [] (<["_id" := VStr "5098a2"]> {["b" := VNum 2]}) plain_attrs)
  ∧ st_trace out.2 = [EvCall sample_handler [VNull; VObject KArray 8]].
Proof. vm_compute. by repeat split. Qed.

Lemma handler_invoked_once_per_reply_witness :
  let args := [VStr "books"; VObject KPlain 0; sample_handler] in
  let c := Query (VStr "books") [VObject KPlain 0; VObject KPlain 10] (VNum 0)
             (CbFindOne sample_handler) in
  let s1 := (public_call sample_constants MFindOne args sample_state).2 in
  public_call sample_constants MFindOne args sample_state = (Ok (Some c), s1)
  ∧ handler_of (ec_callback c) = Some sample_handler
  ∧ typeof sample_handler = "function"
  ∧ st_trace s1 = st_trace sample_state
  ∧ (∀ reply s,
       reply_ok (ec_callback c) reply s →
       count_calls sample_handler
         (st_trace (run_callback throws not_a_number (ec_callback c) reply s).2)
       = count_calls sample_handler (st_trace s) + 1)
  ∧ (∀ reply,
       reply_ok (ec_callback c) reply s1 →
       count_calls sample_handler
         (st_trace (operation sample_constants throws not_a_number MFindOne args reply
                      sample_state).2)
       = count_calls sample_handler (st_trace sample_state) + 1).
Proof.
  intros args c s1.
  assert (Hcall : public_call sample_constants MFindOne args sample_state
                  = (Ok (Some c), s1)) by (vm_compute; reflexivity).
  assert (Hk : handler_of (ec_callback c) = Some sample_handler) by reflexivity.
  assert (Hf : typeof sample_handler = "function") by reflexivity.
  repeat (split; [assumption|]).
  exact (handler_invoked_once_per_reply sample_constants throws not_a_number MFindOne args
           sample_state s1 c sample_handler Hcall Hk Hf).
Defined.

(** C7, as stated, fails. [save] with nothing to save returns at line 120
    without contacting the engine, so the handler passed along is called
    zero times. And a reply that reports success without what the callback
    goes on to use makes the callback throw before it reaches the handler:
    no cursor for [findOne] (line 354) or for [count] (line 477), no
    identifiers for [save] of a batch that holds an object (line 139). *)
Lemma handler_called_zero_times :
  let cb := sample_handler in
  let q := VObject KPlain 0 in
  typeof cb = "function"
  ∧ (let args := [VStr "books"; VNull; cb] in
     let out := operation sample_constants returns not_a_number MSave args
                  [VNull; VObject KArray 8] sample_state in
     public_call sample_constants MSave args sample_state
     = (Ok None, sample_state)
     ∧ out = (Ok tt, sample_state)
     ∧ count_calls cb (st_trace out.2) = 0
     ∧ count_calls cb (st_trace out.2)
       ≠ count_calls cb (st_trace sample_state) + 1)
  ∧ (let args := [VStr "books"; q; cb] in
     let out := operation sample_constants returns not_a_number MFindOne args
                  [VNull] sample_state in
     (∃ c s1, public_call sample_constants MFindOne args sample_state
              = (Ok (Some c), s1))
     ∧ out.1 = Throw (TypeError "Cannot call a cursor method on this value")
     ∧ count_calls cb (st_trace out.2) = 0)
  ∧ (let args := [VStr "books"; q; cb] in
     let out := operation sample_constants returns not_a_number MCount args
                  [VNull] sample_state in
     (∃ c s1, public_call sample_constants MCount args sample_state
              = (Ok (Some c), s1))
     ∧ out.1 = Throw (TypeError "Cannot call a cursor method on this value")
     ∧ count_calls cb (st_trace out.2) = 0)
  ∧ (let args := [VStr "books"; VObject KArray 7; cb] in
     let out := operation sample_constants returns not_a_number MSave args
                  [VNull] sample_state in
     (∃ c s1, public_call sample_constants MSave args sample_state
              = (Ok (Some c), s1))
     ∧ (∃ msg, out.1 = Throw (TypeError msg))
     ∧ count_calls cb (st_trace out.2) = 0).
Proof.
  repeat split; try (vm_compute; reflexivity); try (vm_compute; discriminate);
    try (vm_compute; by eexists _, _); vm_compute; by eexists.
Qed.

(** [find] with a collection name that is not a string throws before the
    engine is contacted: the handler is not called either. *)
Example find_rejected_never_calls_handler :
  let args := [VNum 42; VObject KPlain 0; sample_handler] in
  operation sample_constants returns not_a_number MFind args [VNull; VCursor 0; VNum 2]
    sample_state
  = (Throw (Error msg_cname),
     State (sample_heap ++ [Cell [] ∅ array_attrs; empty_cell]) sample_cursors []).
Proof. vm_compute. reflexivity. Qed.

(** C2. [update("books", {})]: no handler is passed and the call returns
    normally, but the failure reported by the engine is not discarded
    silently: the callback handed to the engine calls [null] and throws a
    [TypeError], on a failure reply (line 420) as well as on a success
    reply (line 423). *)
Theorem update_without_handler_fails :
  let args := [VStr "books"; VObject KPlain 0] in
  ∃ req s1,
    update sample_constants args sample_state =
      (Ok (Query (VStr "books") req (VNum 1) (CbUpdate VNull)), s1)
    ∧ run_callback returns not_a_number (CbUpdate VNull)
        [VStr "record is locked"; VUndefined; VUndefined; VStr "log"] s1
      = (Throw (TypeError "is not a function"), s1)
    ∧ run_callback returns not_a_number (CbUpdate VNull)
        [VNull; VCursor 1; VNum 0; VStr "log"] s1
      = (Throw (TypeError "is not a function"), s1).
Proof. vm_compute. eexists _, _. by repeat split. Qed.

(** A handler that throws does not keep [findOne] from closing the
    cursor. *)
Example findOne_sample_handler_throws :
  run_callback throws not_a_number (CbFindOne sample_handler) [VNull; VCursor 0; VNum 2]
    sample_state
  = (Throw (Thrown (VStr "handler failed")),
     State sample_heap
       (<[0 := Cursor [VObject KPlain 5; VObject KPlain 6] 1]> sample_cursors)
       [EvNext 0; EvObject 0; EvCall sample_handler [VNull; VObject KPlain 5];
        EvClose 0]).
Proof. vm_compute. reflexivity. Qed.

(** The caller's hints object of the sample session, read back after
    [findOne] returned. *)
Example findOne_sample_hints :
  let out := findOne [VStr "books"; VObject KPlain 0; VObject KPlain 4;
                      sample_handler] sample_state in
  out.1 = Ok (Query (VStr "books") [VObject KPlain 0; VObject KPlain 4] (VNum 0)
                (CbFindOne sample_handler))
  ∧ st_heap out.2 !! 4 =
      Some (Cell [] (<["$max" := VNum 1]> {["$onlycount" := VBool true]})
              plain_attrs).
Proof. vm_compute. by split. Qed.

(** The composed index flags of the sample constants. *)
Example rebuildIStringIndex_flags :
  index_flags sample_constants rebuildIStringIndex = 136%Z.
Proof. reflexivity. Qed.

(** * Closed examples for the further properties *)

Lemma find_count_update_share_request_witness :
  let args := [VStr "books"; VObject KPlain 0; VObject KPlain 4; sample_handler] in
  typeof (resolved_handler args) = "function"
  ∧ typeof (arg args 0) = "string"
  ∧ ∃ req mode s1,
      find sample_constants args sample_state =
        (Ok (Query (arg args 0) req mode (CbUser (resolved_handler args))), s1)
      ∧ count sample_constants args sample_state =
          (Ok (Query (arg args 0) req (VNum (JBQRYCOUNT sample_constants))
                 (CbCount (resolved_handler args))), s1)
      ∧ update sample_constants args sample_state =
          (Ok (Query (arg args 0) req (VNum (JBQRYCOUNT sample_constants))
                 (CbUpdate (resolved_handler args))), s1)
      ∧ (mode = VNum (JBQRYCOUNT sample_constants) ∨ mode = VNum 0).
Proof.
  intros args.
  assert (Hf : typeof (resolved_handler args) = "function") by reflexivity.
  assert (Hc : typeof (arg args 0) = "string") by reflexivity.
  repeat (split; [assumption|]).
  exact (find_count_update_share_request sample_constants args sample_state Hf Hc).
Defined.

Lemma reply_passed_through_witness :
  let args := [VStr "books"; VStr "5098a1"; sample_handler] in
  let c := Load (VStr "books") (VStr "5098a1") (CbUser sample_handler) in
  (MLoad ∈ [MLoad; MRemove; MFind; MSync] ∨ (∃ i, MLoad = MIndex i))
  ∧ public_call sample_constants MLoad args sample_state
    = (Ok (Some c), sample_state)
  ∧ ∃ cb,
      ec_callback c = CbUser cb
      ∧ cb = arg args 2
      ∧ ∀ l reply s,
          cb = VObject KFunction l →
          st_trace (run_callback returns not_a_number (ec_callback c) reply s).2
            = st_trace s ++ [EvCall cb reply]
          ∧ st_cursors (run_callback returns not_a_number (ec_callback c) reply s).2
            = st_cursors s.
Proof.
  intros args c.
  assert (Hm : MLoad ∈ [MLoad; MRemove; MFind; MSync] ∨ (∃ i, MLoad = MIndex i))
    by (left; apply list_elem_of_here).
  assert (Hcall : public_call sample_constants MLoad args sample_state
                  = (Ok (Some c), sample_state)) by reflexivity.
  repeat (split; [assumption|]).
  exact (reply_passed_through sample_constants returns not_a_number MLoad args sample_state
           sample_state c Hm Hcall).
Defined.

Lemma findOne_failure_reports_error_witness :
  let args := [VStr "books"; VObject KPlain 0; sample_handler] in
  typeof (resolved_handler args) = "function"
  ∧ typeof (arg args 0) = "string"
  ∧ ∃ req s1,
      findOne args sample_state =
        (Ok (Query (arg args 0) req (VNum 0) (CbFindOne (resolved_handler args))), s1)
      ∧ ∀ reply s,
          truthy (arg reply 0) = true →
          st_trace (run_callback returns not_a_number (CbFindOne (resolved_handler args)) reply s).2
            = st_trace s ++ [EvCall (resolved_handler args) [arg reply 0]]
          ∧ st_cursors (run_callback returns not_a_number (CbFindOne (resolved_handler args)) reply s).2
            = st_cursors s.
Proof.
  intros args.
  assert (Hf : typeof (resolved_handler args) = "function") by reflexivity.
  assert (Hc : typeof (arg args 0) = "string") by reflexivity.
  repeat (split; [assumption|]).
  exact (findOne_failure_reports_error returns not_a_number args sample_state Hf Hc).
Defined.

Lemma save_normalises_arguments_witness :
  let args := [VStr "books"; VObject KPlain 5; sample_handler] in
  truthy (arg args 1) = true
  ∧ ∃ j opts s1,
      save args sample_state =
        (Ok (Some (Save (arg args 0) j opts
                     (CbSave j
                        (if String.eqb (typeof (arg args 2)) "function"
                         then arg args 2 else arg args 3)))), s1)
      ∧ extends sample_state s1
      ∧ truthy opts = true
      ∧ typeof opts ≠ "function"
      ∧ (if constructor_is_Array (st_heap sample_state) (arg args 1)
         then j = arg args 1
         else j = VObject KArray (length (st_heap sample_state))
              ∧ st_heap s1 !! length (st_heap sample_state)
                = Some (Cell [arg args 1] ∅ array_attrs)).
Proof.
  intros args.
  assert (Hj : truthy (arg args 1) = true) by reflexivity.
  split; [assumption|].
  exact (save_normalises_arguments args sample_state Hj).
Defined.

(** An array of another realm (cell 14) is not passed on as the batch: it
    is wrapped like a single document. *)
Example save_wraps_foreign_array :
  (save [VStr "books"; VObject KArray 14; sample_handler] exotic_state).1
  = Ok (Some (Save (VStr "books") (VObject KArray 15) (VObject KPlain 16)
                (CbSave (VObject KArray 15) sample_handler)))
  ∧ st_heap (save [VStr "books"; VObject KArray 14; sample_handler]
               exotic_state).2 !! 15
    = Some (Cell [VObject KArray 14] ∅ array_attrs).
Proof. vm_compute. by split. Qed.

Lemma save_single_document_witness :
  let args := [VStr "books"; VObject KPlain 5; sample_handler] in
  arg args 1 = VObject KPlain 5
  ∧ constructor_is_Array (st_heap sample_state) (VObject KPlain 5) = false
  ∧ ∃ opts cb s1,
      let la := length (st_heap sample_state) in
      save args sample_state =
        (Ok (Some (Save (arg args 0) (VObject KArray la) opts
                     (CbSave (VObject KArray la) cb))), s1)
      ∧ st_heap s1 !! la = Some (Cell [VObject KPlain 5] ∅ array_attrs)
      ∧ ∀ reply s pa aa lo ids po ao c,
          truthy (arg reply 0) = false →
          arg reply 1 = VObject KArray lo →
          st_heap s !! la = Some (Cell [VObject KPlain 5] pa aa) →
          st_heap s !! lo = Some (Cell ids po ao) →
          st_heap s !! 5 = Some c →
          accepts c "_id" = true →
          ∃ h' p',
            run_callback returns not_a_number (CbSave (VObject KArray la) cb) reply s =
              (if truthy cb then call returns cb [arg reply 0; arg reply 1]
               else mret tt) (State h' (st_cursors s) (st_trace s))
            ∧ h' !! 5 = Some (Cell (elems c) p' (cattrs c))
            ∧ default VUndefined (p' !! "_id") = oid_at ids 0
            ∧ ∀ key, key ≠ "_id" → p' !! key = props c !! key.
Proof.
  intros args.
  assert (Hd : arg args 1 = VObject KPlain 5) by reflexivity.
  assert (Hk : constructor_is_Array (st_heap sample_state) (VObject KPlain 5) = false)
    by reflexivity.
  repeat (split; [assumption|]).
  exact (save_single_document returns not_a_number args KPlain 5 sample_state Hd Hk).
Defined.

(** [save] of the single document of cell 5, run to the end on the sample
    session: the document accepts the identifier. *)
Example save_sample_document :
  let out := operation sample_constants returns not_a_number MSave
               [VStr "books"; VObject KPlain 5; sample_handler]
               [VNull; VObject KArray 8] sample_state in
  accepts (Cell [] {["a" := VNum 1]} plain_attrs) "_id" = true
  ∧ out.1 = Ok tt
  ∧ st_heap out.2 !! 5 =
      Some (Cell [] (<["_id" := VStr "5098a1"]> {["a" := VNum 1]}) plain_attrs).
Proof. vm_compute. by repeat split. Qed.

Lemma save_without_handler_is_silent_witness :
  let args := [VStr "books"; VObject KArray 7] in
  truthy (arg args 1) = true
  ∧ typeof (arg args 2) ≠ "function"
  ∧ truthy (arg args 3) = false
  ∧ ∃ j opts s1,
      save args sample_state =
        (Ok (Some (Save (arg args 0) j opts (CbSave j (arg args 3)))), s1)
      ∧ j = (if constructor_is_Array (st_heap sample_state) (arg args 1)
             then arg args 1 else VObject KArray (length (st_heap sample_state)))
      ∧ ∀ reply s,
          (truthy (arg reply 0) = true →
           run_callback throws not_a_number (CbSave j (arg args 3)) reply s
             = (Ok tt, s))
          ∧ (truthy (arg reply 0) = false →
             not_nullish (arg reply 1) = true →
             ∃ h',
               run_callback throws not_a_number (CbSave j (arg args 3)) reply s
                 = (Ok tt, State h' (st_cursors s) (st_trace s))).
Proof.
  intros args.
  assert (Hj : truthy (arg args 1) = true) by reflexivity.
  assert (Hf : typeof (arg args 2) ≠ "function") by (vm_compute; discriminate).
  assert (Hcb : truthy (arg args 3) = false) by reflexivity.
  repeat (split; [assumption|]).
  exact (save_without_handler_is_silent throws not_a_number args sample_state Hj Hf Hcb).
Defined.

Lemma public_call_keeps_caller_heap_witness :
  let args := [VStr "books"; VObject KPlain 5; sample_handler] in
  MSave ≠ MFindOne
  ∧ extends sample_state (public_call sample_constants MSave args sample_state).2.
Proof.
  intros args.
  assert (Hm : MSave ≠ MFindOne) by discriminate.
  split; [assumption|].
  exact (public_call_keeps_caller_heap sample_constants MSave args sample_state Hm).
Defined.

Lemma findOne_writes_max_only_witness :
  let args := [VStr "books"; VObject KPlain 0; VObject KPlain 4; sample_handler] in
  let c := Cell [] (<["$max" := VNum 10]> {["$onlycount" := VBool true]})
             plain_attrs in
  st_heap sample_state !! 4 = Some c
  ∧ (∃ p', st_heap (findOne args sample_state).2 !! 4
           = Some (Cell (elems c) p' (cattrs c))
           ∧ ∀ k, k ≠ "$max" → p' !! k = props c !! k)
  ∧ st_cursors (findOne args sample_state).2 = st_cursors sample_state
  ∧ st_trace (findOne args sample_state).2 = st_trace sample_state.
Proof.
  intros args c.
  assert (Hl : st_heap sample_state !! 4 = Some c) by reflexivity.
  split; [assumption|].
  exact (findOne_writes_max_only args sample_state 4 c Hl).
Defined.

Lemma find_proper_arguments_witness :
  let cname := VStr "books" in
  let q := VObject KPlain 0 in
  let o := VNull in
  let cb := sample_handler in
  let s := sample_state in
  typeof cb = "function"
  ∧ typeof cname = "string"
  ∧ truthy q = true
  ∧ typeof q = "object"
  ∧ KPlain ≠ KFunction
  ∧ find sample_constants [cname; q; o; VObject KPlain 4; cb] s =
      (Ok (Query cname
             (q :: spread (st_heap s) o ++ spread (st_heap s) (VObject KPlain 4))
             (if truthy (default VUndefined
                           (c ← st_heap s !! 4; props c !! "$onlycount"))
              then VNum (JBQRYCOUNT sample_constants) else VNum 0)
             (CbUser cb)), s).
Proof.
  intros cname q o cb s.
  assert (Hf : typeof cb = "function") by reflexivity.
  assert (Hc : typeof cname = "string") by reflexivity.
  assert (Hq : truthy q = true) by reflexivity.
  assert (Hqo : typeof q = "object") by reflexivity.
  assert (Hk : KPlain ≠ KFunction) by discriminate.
  repeat (split; [assumption|]).
  exact (find_proper_arguments sample_constants cname q o cb KPlain 4 s
           Hf Hc Hq Hqo Hk).
Defined.

(** [find("books", {...}, null, hints, cb)] on the sample session: [null]
    travels to the engine as the second element of the request. *)
Example find_sample_null_or_argument :
  find sample_constants
    [VStr "books"; VObject KPlain 0; VNull; VObject KPlain 4; sample_handler]
    sample_state
  = (Ok (Query (VStr "books") [VObject KPlain 0; VNull; VObject KPlain 4]
           (VNum 1) (CbUser sample_handler)), sample_state).
Proof. vm_compute. reflexivity. Qed.

Lemma find_defaults_predicate_witness :
  let cname := VStr "books" in
  let q := VNull in
  let rest := [sample_handler] in
  let s := sample_state in
  typeof (resolved_handler (cname :: q :: rest)) = "function"
  ∧ typeof cname = "string"
  ∧ negb (truthy q) || negb (String.eqb (typeof q) "object") = true
  ∧ wf (st_heap s) q
  ∧ st_heap s !! 3 = Some empty_cell
  ∧ Forall (wf (st_heap s)) rest
  ∧ Forall (wf (st_heap s)) (spread (st_heap s) (arg (cname :: q :: rest) 2))
  ∧ (length rest = 1 ∨ length rest = 2
     ∨ is_array (arg (cname :: q :: rest) 3) = false)
  ∧ same_dispatch (find sample_constants (cname :: q :: rest) s)
                  (find sample_constants (cname :: VObject KPlain 3 :: rest) s).
Proof.
  intros cname q rest s.
  assert (Hf : typeof (resolved_handler (cname :: q :: rest)) = "function")
    by reflexivity.
  assert (Hc : typeof cname = "string") by reflexivity.
  assert (Hq : negb (truthy q) || negb (String.eqb (typeof q) "object") = true)
    by reflexivity.
  assert (Hwq : wf (st_heap s) q) by exact I.
  assert (Hle : st_heap s !! 3 = Some empty_cell) by reflexivity.
  assert (Hrest : Forall (wf (st_heap s)) rest)
    by (repeat constructor; vm_compute; lia).
  assert (Hsp : Forall (wf (st_heap s))
                  (spread (st_heap s) (arg (cname :: q :: rest) 2)))
    by (repeat constructor; vm_compute; lia).
  assert (Hlen : length rest = 1 ∨ length rest = 2
                 ∨ is_array (arg (cname :: q :: rest) 3) = false)
    by (left; reflexivity).
  repeat (split; [assumption|]).
  exact (find_defaults_predicate sample_constants cname q rest 3 s
           Hf Hc Hq Hwq Hle Hrest Hsp Hlen).
Defined.

Lemma findOne_fresh_hints_witness :
  let args := [VStr "books"; VObject KPlain 0; sample_handler] in
  typeof (resolved_handler args) = "function"
  ∧ typeof (arg args 0) = "string"
  ∧ (length args = 3
     ∨ (length args = 4
        ∧ truthy (arg args 2)
          && constructor_is_Array (st_heap sample_state) (arg args 2) = true))
  ∧ ∃ req s1 lh,
      findOne args sample_state =
        (Ok (Query (arg args 0) req (VNum 0) (CbFindOne (resolved_handler args))), s1)
      ∧ last req = Some (VObject KPlain lh)
      ∧ length (st_heap sample_state) ≤ lh
      ∧ st_heap s1 !! lh = Some (Cell [] {["$max" := VNum 1]} plain_attrs).
Proof.
  intros args.
  assert (Hf : typeof (resolved_handler args) = "function") by reflexivity.
  assert (Hc : typeof (arg args 0) = "string") by reflexivity.
  assert (Hlen : length args = 3
                 ∨ (length args = 4
                    ∧ truthy (arg args 2)
                      && constructor_is_Array (st_heap sample_state) (arg args 2)
                      = true))
    by (left; reflexivity).
  repeat (split; [assumption|]).
  exact (findOne_fresh_hints args sample_state Hf Hc Hlen).
Defined.

(** An array of another realm in third place of four (cell 11) is taken as
    hints: [findOne] writes ["$max"] onto the caller's array and splices it
    into the request, which then ends with the array's last element and not
    with hints of the call's own making. *)
Example findOne_foreign_array_as_hints :
  let out := findOne [VStr "books"; VObject KPlain 0; VObject KArray 11;
                      sample_handler] exotic_state in
  out.1 = Ok (Query (VStr "books") [VObject KPlain 0; VObject KPlain 0] (VNum 0)
                (CbFindOne sample_handler))
  ∧ st_heap out.2 !! 11 =
      Some (Cell [VObject KPlain 0] {["$max" := VNum 1]} (Attrs false true ∅)).
Proof. vm_compute. by split. Qed.

Lemma index_flags_injective_witness :
  disjoint_flags (index_constants sample_constants)
  ∧ index_flags sample_constants dropStringIndex
    = index_flags sample_constants dropStringIndex
  ∧ dropStringIndex = dropStringIndex.
Proof.
  assert (Hd : disjoint_flags (index_constants sample_constants)).
  { cbn. repeat split; try lia; repeat constructor. }
  assert (He : index_flags sample_constants dropStringIndex
               = index_flags sample_constants dropStringIndex) by reflexivity.
  repeat (split; [assumption|]).
  exact (index_flags_injective sample_constants dropStringIndex dropStringIndex
           Hd He).
Defined.

(** Without the hypothesis the flag words can collide: if [JBIDXARR] were
    [JBIDXSTR | JBIDXREBLD], rebuilding a string index and ensuring an
    array index would look the same to the engine. *)
Example index_flags_can_collide :
  let K := Constants 1 1 2 4 8 16 32 40 128 in
  index_flags K rebuildStringIndex = index_flags K ensureArrayIndex.
Proof. reflexivity. Qed.

Lemma save_reply_idempotent_witness :
  let reply := [VNull; VObject KArray 8] in
  let docs := [VObject KPlain 5; VObject KPlain 6] in
  let ids := [VStr "5098a1"; VStr "5098a2"] in
  truthy VUndefined = false
  ∧ truthy (arg reply 0) = false
  ∧ arg reply 1 = VObject KArray 8
  ∧ st_heap sample_state !! 7 = Some (Cell docs ∅ array_attrs)
  ∧ st_heap sample_state !! 8 = Some (Cell ids ∅ array_attrs)
  ∧ (∀ i j k k' l, docs !! i = Some (VObject k l) →
                   docs !! j = Some (VObject k' l) → i = j)
  ∧ ∃ s1,
      run_callback returns not_a_number (CbSave (VObject KArray 7) VUndefined) reply sample_state
        = (Ok tt, s1)
      ∧ run_callback returns not_a_number (CbSave (VObject KArray 7) VUndefined) reply s1
        = (Ok tt, s1).
Proof.
  intros reply docs ids.
  assert (Hcb : truthy VUndefined = false) by reflexivity.
  assert (Herr : truthy (arg reply 0) = false) by reflexivity.
  assert (Ho : arg reply 1 = VObject KArray 8) by reflexivity.
  assert (Hla : st_heap sample_state !! 7 = Some (Cell docs ∅ array_attrs))
    by reflexivity.
  assert (Hlo : st_heap sample_state !! 8 = Some (Cell ids ∅ array_attrs))
    by reflexivity.
  assert (Hdist : ∀ i j k k' l, docs !! i = Some (VObject k l) →
                    docs !! j = Some (VObject k' l) → i = j).
  { subst docs. intros [|[|i]] [|[|j]] k k' l Hi Hj; by simplify_eq/=. }
  repeat (split; [assumption|]).
  exact (save_reply_idempotent returns not_a_number 7 8 VUndefined reply sample_state docs ids
           ∅ ∅ array_attrs array_attrs Hcb Herr Ho Hla Hlo Hdist).
Defined.

(** The exports of a module reduced to three properties: the two whose
    name begins with "JB" are copied, the constructor is not. *)
Example export_constants_sample :
  let exports : gmap string value :=
    {[ "JBOWRITER" := VNum 2; "JBOCREAT" := VNum 4;
       "NodeEJDB" := VObject KFunction 1 ]} in
  let statics := export_constants exports (VNum 6) ∅ in
  statics !! "JBOWRITER" = Some (VNum 2)
  ∧ statics !! "JBOCREAT" = Some (VNum 4)
  ∧ statics !! "NodeEJDB" = None
  ∧ statics !! "DEFAULT_OPEN_MODE" = Some (VNum 6).
Proof. vm_compute. by repeat split. Qed.
